(** * alsam-xml.js: the ALSAM XML layer codec

    A shallow embedding of the TypeScript sources [src/validation.ts] and
    [src/index.ts] (the field accessors, [LoadXML] and [ExportXML]), together
    with the two accessors of the older [alsam-xml.js], and the properties of
    the decode/validate/encode pipeline proved about them.

    JavaScript objects are dynamically typed, so every decoded field is a
    [value]; documents are trees of elements and text nodes, queried the way
    the DOM does ([getElementsByTagName], [textContent]); a thrown exception
    is the [Err] branch of [result]. *)

From Stdlib Require Import String Ascii List ZArith NArith Bool Lia.
From Stdlib Require Import DecimalString.
Import ListNotations.
Open Scope string_scope.

(* ================================================================= *)
(** ** Exceptions *)

Inductive error : Type :=
| AssertionError (message : string)
| TypeError (message : string)
| Error (message : string).

Inductive result (A : Type) : Type :=
| Ok (a : A)
| Err (e : error).
Arguments Ok {A} a.
Arguments Err {A} e.

Definition bind {A B} (m : result A) (k : A -> result B) : result B :=
  match m with
  | Ok a => k a
  | Err e => Err e
  end.

Notation "x <- m ;; k" := (bind m (fun x => k))
  (at level 61, m at next level, right associativity).
Notation "m ;;; k" := (bind m (fun _ => k))
  (at level 61, right associativity).

(** [assert(cond, message)] of Node's [assert] module. *)
Definition assert (cond : bool) (message : string) : result unit :=
  if cond then Ok tt else Err (AssertionError message).

(** [for (let x of xs) body], the loop state threaded through the body; an
    exception leaves the loop at once. *)
Fixpoint for_of {A S : Type} (xs : list A) (body : S -> A -> result S) (s : S)
  : result S :=
  match xs with
  | [] => Ok s
  | x :: rest => s' <- body s x ;; for_of rest body s'
  end.

(** The same loop written as a traversal that collects one result per item. *)
Fixpoint traverse {A B : Type} (f : A -> result B) (xs : list A)
  : result (list B) :=
  match xs with
  | [] => Ok []
  | x :: rest => y <- f x ;; ys <- traverse f rest ;; Ok (y :: ys)
  end.

(* ================================================================= *)
(** ** Document trees *)

#[warnings="-register-all"]
Inductive node : Type :=
| Element (tagName : string) (childNodes : list node)
| Text (data : string).

(** The document node: its only element child is the root, and no tag name
    of the schema can match it. *)
Definition Document (root : node) : node := Element "#document" [root].

(** The name asked for matches the elements of that name; the name ["*"]
    matches every element. *)
Definition name_matches (name t : string) : bool :=
  String.eqb name "*" || String.eqb t name.

(** [subtree name n] lists, in document (pre-)order, the elements that
    [name] matches among [n] and its descendants. *)
Fixpoint subtree (name : string) (n : node) : list node :=
  match n with
  | Text _ => []
  | Element t cs =>
      (if name_matches name t then [n] else []) ++ flat_map (subtree name) cs
  end.

(** [xmlNode.getElementsByTagName(name)]: every descendant element that
    the name matches, in document order; the node itself is not a
    candidate. *)
Definition getElementsByTagName (xmlNode : node) (name : string) : list node :=
  match xmlNode with
  | Text _ => []
  | Element _ cs => flat_map (subtree name) cs
  end.

(** [node.textContent]: the text of all descendant text nodes, concatenated. *)
Fixpoint textContent (n : node) : string :=
  match n with
  | Text d => d
  | Element _ cs => String.concat "" (map textContent cs)
  end.

(** The direct element children with a given name. *)
Definition childrenNamed (xmlNode : node) (name : string) : list node :=
  match xmlNode with
  | Text _ => []
  | Element _ cs =>
      filter (fun c => match c with
                       | Element t _ => String.eqb t name
                       | Text _ => false
                       end) cs
  end.

(* ================================================================= *)
(** ** JavaScript values *)

(** A number is kept as the decimal numeral it was read from,
    [(-1)^neg * mant / 10^scale]; it stands for the binary64 value nearest
    to that decimal. *)
Inductive number : Type :=
| NaN
| Num (neg : bool) (mant : N) (scale : nat).

Inductive value : Type :=
| VUndefined
| VNull
| VString (s : string)
| VNumber (n : number).

Definition is_digit (c : ascii) : bool :=
  let n := nat_of_ascii c in (48 <=? n)%nat && (n <=? 57)%nat.

Fixpoint all_digits (s : string) : bool :=
  match s with
  | EmptyString => true
  | String c r => is_digit c && all_digits r
  end.

Definition nonempty (s : string) : bool :=
  match s with
  | EmptyString => false
  | String _ _ => true
  end.

(** The longest prefix of digits, and what follows it. *)
Fixpoint span_digits (s : string) : string * string :=
  match s with
  | EmptyString => (EmptyString, EmptyString)
  | String c r =>
      if is_digit c
      then let (d, rest) := span_digits r in (String c d, rest)
      else (EmptyString, s)
  end.

Definition is_sign (c : ascii) : bool :=
  Ascii.eqb c "+"%char || Ascii.eqb c "-"%char.

Definition strip_sign (s : string) : string :=
  match s with
  | String c r => if is_sign c then r else s
  | EmptyString => s
  end.

Definition is_negative (s : string) : bool :=
  match s with
  | String c _ => Ascii.eqb c "-"%char
  | EmptyString => false
  end.

(** [const isIntegerRegex = /^[0-9]*$/] *)
Definition isIntegerRegex (s : string) : bool := all_digits s.

(** [const isFloatRegex = /^[+-]?([0-9]*[.])?[0-9]+$/] *)
Definition isFloatRegex (s : string) : bool :=
  let (d, rest) := span_digits (strip_sign s) in
  match rest with
  | EmptyString => nonempty d
  | String c f => Ascii.eqb c "."%char && nonempty f && all_digits f
  end.

(** [/^\d{4}-\d{2}-\d{2}$/] *)
Definition dateRegex (s : string) : bool :=
  match list_ascii_of_string s with
  | [y1; y2; y3; y4; h1; m1; m2; h2; d1; d2] =>
      is_digit y1 && is_digit y2 && is_digit y3 && is_digit y4
      && Ascii.eqb h1 "-"%char && is_digit m1 && is_digit m2
      && Ascii.eqb h2 "-"%char && is_digit d1 && is_digit d2
  | _ => false
  end.

Definition digit_value (c : ascii) : N := N.of_nat (nat_of_ascii c - 48).

Fixpoint digits_value (acc : N) (s : string) : N :=
  match s with
  | EmptyString => acc
  | String c r => digits_value (acc * 10 + digit_value c) r
  end.

(** [ToNumber] on text.  Only the numerals of [isFloatRegex] are read as
    numbers here; the decoder compares no other text, because [validate]
    rejects it first, and the encoder compares only the [numSegments] of a
    path, which is such a numeral in every decoded layer (exponents,
    hexadecimal, [Infinity], surrounding white space and the empty string
    are the forms left out, and answered as [NaN]). *)
Definition StringToNumber (s : string) : number :=
  if isFloatRegex s then
    let (d, rest) := span_digits (strip_sign s) in
    match rest with
    | EmptyString => Num (is_negative s) (digits_value 0 d) 0
    | String _ f =>
        Num (is_negative s) (digits_value (digits_value 0 d) f) (String.length f)
    end
  else NaN.

(** [parseFloat] and [parseInt] read the longest numeric prefix (no leading
    white space, exponent or radix prefix in this model). *)
Definition parseFloat (s : string) : number :=
  let (d, rest) := span_digits (strip_sign s) in
  match rest with
  | String "." r =>
      let (f, _) := span_digits r in
      if nonempty d || nonempty f
      then Num (is_negative s) (digits_value (digits_value 0 d) f) (String.length f)
      else NaN
  | _ => if nonempty d then Num (is_negative s) (digits_value 0 d) 0 else NaN
  end.

Definition parseInt (s : string) : number :=
  let (d, _) := span_digits (strip_sign s) in
  if nonempty d then Num (is_negative s) (digits_value 0 d) 0 else NaN.

Definition ToNumber (v : value) : number :=
  match v with
  | VUndefined => NaN
  | VNull => Num false 0 0
  | VString s => StringToNumber s
  | VNumber n => n
  end.

(** Half of the least positive binary64 value is [2^-1075]: a decimal rounds
    to a non-zero number exactly when its magnitude exceeds it (a tie rounds
    to the even neighbour, zero). *)
Definition underflow_exp : N := 1075.

Definition rounds_to_zero (mant : N) (scale : nat) : bool :=
  (mant * 2 ^ underflow_exp <=? 10 ^ N.of_nat scale)%N.

(** [x > 0] and [x >= 0] on numbers ([-0 >= 0] holds, [NaN] compares false). *)
Definition num_gt0 (x : number) : bool :=
  match x with
  | Num false m k => negb (rounds_to_zero m k)
  | _ => false
  end.

Definition num_ge0 (x : number) : bool :=
  match x with
  | NaN => false
  | Num false _ _ => true
  | Num true m k => rounds_to_zero m k
  end.

Definition signed (neg : bool) (m : N) : Z :=
  if neg then (- Z.of_N m)%Z else Z.of_N m.

(** [x <= c] and [x >= c] against an integer literal, decided on the
    decimal; for integral [x] (all that [isIntegerRegex] lets through) this
    is the binary64 comparison. *)
Definition num_le (x : number) (c : Z) : bool :=
  match x with
  | NaN => false
  | Num neg m k => (signed neg m <=? c * 10 ^ Z.of_nat k)%Z
  end.

Definition num_ge (x : number) (c : Z) : bool :=
  match x with
  | NaN => false
  | Num neg m k => (c * 10 ^ Z.of_nat k <=? signed neg m)%Z
  end.

(** [v > 0], [v >= 0], [v <= c], [v >= c] with the operand converted by
    [ToNumber]. *)
Definition js_gt0 (v : value) : bool := num_gt0 (ToNumber v).
Definition js_ge0 (v : value) : bool := num_ge0 (ToNumber v).
Definition js_le (v : value) (c : Z) : bool := num_le (ToNumber v) c.
Definition js_ge (v : value) (c : Z) : bool := num_ge (ToNumber v) c.

(** [v === c] for an integer literal [c]: never true of text, whatever the
    text says. *)
Definition strict_eq_int (v : value) (c : Z) : bool :=
  match v with
  | VNumber (Num neg m k) => (signed neg m =? c * 10 ^ Z.of_nat k)%Z
  | _ => false
  end.

(** [v === "literal"] *)
Definition strict_eq_str (v : value) (lit : string) : bool :=
  match v with
  | VString s => String.eqb s lit
  | _ => false
  end.

(** Truthiness, as tested by [!v] and [if (v)]. *)
Definition truthy (v : value) : bool :=
  match v with
  | VUndefined | VNull => false
  | VString s => nonempty s
  | VNumber NaN => false
  | VNumber (Num _ m _) => negb (m =? 0)%N
  end.

(** [v != null] *)
Definition not_nullish (v : value) : bool :=
  match v with
  | VUndefined | VNull => false
  | _ => true
  end.

(* ================================================================= *)
(** ** Field accessors ([src/validation.ts]) *)

(** The [type] argument: ["float"], ["integer"], or [undefined] for text. *)
Inductive kind : Type := KFloat | KInteger.

Definition validate (nodeName : string) (text : string) (type : option kind)
  : result unit :=
  (match type with
   | Some KFloat => assert (isFloatRegex text) (nodeName ++ " must be a float")
   | _ => Ok tt
   end) ;;;
  (match type with
   | Some KInteger =>
       assert (isIntegerRegex text) (nodeName ++ " must be an integer")
   | _ => Ok tt
   end).

(** Converts the passed-in text to the provided type. *)
Definition cast (text : string) (type : option kind) : value :=
  match type with
  | Some KFloat => VNumber (parseFloat text)
  | Some KInteger => VNumber (parseInt text)
  | None => VUndefined
  end.

(** [getOptionalValue]: the value is read off the first matching element;
    the result of [cast] is dropped and the text itself is returned. *)
Definition getOptionalValue (xmlNode : node) (tagName : string)
  (type : option kind) : result value :=
  match hd_error (getElementsByTagName xmlNode tagName) with
  | Some n =>
      if nonempty (textContent n) then
        validate tagName (textContent n) type ;;;
        let _ := cast (textContent n) type in
        Ok (VString (textContent n))
      else Ok VUndefined
  | None => Ok VUndefined
  end.

Definition getOptionalValueString (xmlNode : node) (tagName : string) :=
  getOptionalValue xmlNode tagName None.
Definition getOptionalValueFloat (xmlNode : node) (tagName : string) :=
  getOptionalValue xmlNode tagName (Some KFloat).
Definition getOptionalValueInteger (xmlNode : node) (tagName : string) :=
  getOptionalValue xmlNode tagName (Some KInteger).

Definition mandatory_message (tagName : string) : string :=
  "Tag " ++ tagName ++ " is mandatory.".

Definition empty_message (tagName : string) : string :=
  "INVALID SCHEMA: Empty <" ++ tagName ++ "> tag!".

(** [getMandatoryValue] *)
Definition getMandatoryValue (xmlNode : node) (tagName : string)
  (type : option kind) : result value :=
  match hd_error (getElementsByTagName xmlNode tagName) with
  | None => Err (AssertionError (mandatory_message tagName))
  | Some n =>
      assert (nonempty (textContent n)) (empty_message tagName) ;;;
      validate tagName (textContent n) type ;;;
      let _ := cast (textContent n) type in
      Ok (VString (textContent n))
  end.

Definition getMandatoryValueString (xmlNode : node) (tagName : string) :=
  getMandatoryValue xmlNode tagName None.
Definition getMandatoryValueFloat (xmlNode : node) (tagName : string) :=
  getMandatoryValue xmlNode tagName (Some KFloat).
Definition getMandatoryValueInteger (xmlNode : node) (tagName : string) :=
  getMandatoryValue xmlNode tagName (Some KInteger).

(** The accessors of the older [alsam-xml.js], which take no type. *)
Module Legacy.

Definition getOptionalValue (xmlNode : node) (tagName : string) : value :=
  match hd_error (getElementsByTagName xmlNode tagName) with
  | Some n => VString (textContent n)
  | None => VNull
  end.

(** [${xmlNode.tagName}]: a document node has no [tagName]. *)
Definition tagName_text (xmlNode : node) : string :=
  match xmlNode with
  | Element t _ => if String.eqb t "#document" then "undefined" else t
  | Text _ => "undefined"
  end.

Definition getMandatoryValue (xmlNode : node) (tagName : string)
  : result value :=
  match hd_error (getElementsByTagName xmlNode tagName) with
  | Some n => Ok (VString (textContent n))
  | None =>
      Err (Error
             ("INVALID SCHEMA: Mandatory tag " ++ tagName
              ++ " not found in XML as child of tag "
              ++ tagName_text xmlNode))
  end.

End Legacy.

(* ================================================================= *)
(** ** The layer model ([src/types.ts]) *)

Record Header : Type := {
  americaMakesSchemaVersion : value;
  layerNum : value;
  layerThickness : value;
  absoluteHeight : value;
  dosingFactor : value;
  buildDescription : value
}.

Record VelocityProfile : Type := {
  vp_ID : value;
  velocity : value;
  mode : value;
  laserOnDelay : value;
  laserOffDelay : value;
  jumpDelay : value;
  markDelay : value;
  polygonDelay : value
}.

Record Wobble : Type := {
  on : value;
  freq : value;
  shape : value;
  transAmp : value;
  longAmp : value
}.

Record Traveler : Type := {
  tr_ID : value;
  syncDelay : value;
  power : value;
  spotSize : value;
  wobble : option Wobble
}.

Record SegmentStyle : Type := {
  ss_ID : value;
  velocityProfileID : value;
  laserMode : value;
  travelers : list Traveler
}.

Record Segment : Type := {
  x1 : value;
  y1 : value;
  x2 : value;
  y2 : value;
  segmentID : value;
  segStyle : value
}.

Record Path : Type := {
  type : value;
  tag : value;
  numSegments : value;
  skyWritingMode : value;
  segments : list Segment
}.

Record Trajectory : Type := {
  trajectoryID : value;
  pathProcessingMode : value;
  paths : list Path
}.

(** The two [Set]s hold freshly built objects, so nothing added is ever a
    duplicate: they are their insertion-ordered sequences. *)
Record Layer : Type := {
  header : Header;
  velocityProfiles : list VelocityProfile;
  segmentStyles : list SegmentStyle;
  trajectories : list Trajectory
}.

(* ================================================================= *)
(** ** The decoder ([src/index.ts], [LoadXML])

    The functions are first written over the mandatory accessor they call,
    so that a run can be set beside the run in which one field reads
    differently; the decoder proper is their instance at
    [getMandatoryValue]. *)

Open Scope list_scope.

(** The two assertions of the [Wobble] block. *)
Definition assert_on (w : Wobble) : result unit :=
  assert (strict_eq_int (on w) 0 || strict_eq_int (on w) 1)
    "INVALID SCHEMA: Wobble On must be 0 or 1!".

Definition assert_shape (w : Wobble) : result unit :=
  assert (js_ge (shape w) (-1) && js_le (shape w) (-1))
    "INVALID SCHEMA: Wobble Shape must be -1, 0, or 1!".

(** The state of the loop over the [Segment] elements of one path: the
    cursor [(lastX, lastY)] and the segments pushed so far. *)
Record cursor : Type := {
  lastX : value;
  lastY : value;
  pushed : list Segment
}.

Module Generic.
Section Accessor.

Variable getMandatoryValue : node -> string -> option kind -> result value.

Definition getMandatoryValueString (xmlNode : node) (tagName : string) :=
  getMandatoryValue xmlNode tagName None.
Definition getMandatoryValueFloat (xmlNode : node) (tagName : string) :=
  getMandatoryValue xmlNode tagName (Some KFloat).
Definition getMandatoryValueInteger (xmlNode : node) (tagName : string) :=
  getMandatoryValue xmlNode tagName (Some KInteger).

Definition getHeader (xmlDoc : node) : result Header :=
  v <- getMandatoryValueString xmlDoc "AmericaMakesSchemaVersion" ;;
  n <- getOptionalValueInteger xmlDoc "LayerNum" ;;
  t <- getMandatoryValueFloat xmlDoc "LayerThickness" ;;
  h <- getOptionalValueFloat xmlDoc "AbsoluteHeight" ;;
  d <- getOptionalValueFloat xmlDoc "DosingFactor" ;;
  b <- getOptionalValueString xmlDoc "BuildDescription" ;;
  let output := {| americaMakesSchemaVersion := v; layerNum := n;
                   layerThickness := t; absoluteHeight := h;
                   dosingFactor := d; buildDescription := b |} in
  assert (match americaMakesSchemaVersion output with
          | VString s => dateRegex s
          | _ => false
          end)
    "INVALID SCHEMA: AmericaMakesSchemaVersion must be in the format YYYY-MM-DD!" ;;;
  assert (js_gt0 (layerThickness output))
    "INVALID SCHEMA: LayerThickness must be a real number more than zero!" ;;;
  assert (negb (truthy (absoluteHeight output)) || js_gt0 (absoluteHeight output))
    "INVALID SCHEMA: AbsoluteHeight must be a real number more than zero!" ;;;
  assert (negb (truthy (dosingFactor output)) || js_gt0 (dosingFactor output))
    "INVALID SCHEMA: DosingFactor must be a real number more than zero!" ;;;
  Ok output.

(** The body of the loop over the [VelocityProfile] elements. *)
Definition velocityProfile_body (style : node) : result VelocityProfile :=
  i <- getMandatoryValueString style "ID" ;;
  v <- getMandatoryValueFloat style "Velocity" ;;
  m <- getMandatoryValueString style "Mode" ;;
  lon <- getMandatoryValueFloat style "LaserOnDelay" ;;
  loff <- getMandatoryValueFloat style "LaserOffDelay" ;;
  j <- getMandatoryValueFloat style "JumpDelay" ;;
  mk <- getMandatoryValueFloat style "MarkDelay" ;;
  p <- getMandatoryValueFloat style "PolygonDelay" ;;
  let profile := {| vp_ID := i; velocity := v; mode := m; laserOnDelay := lon;
                    laserOffDelay := loff; jumpDelay := j; markDelay := mk;
                    polygonDelay := p |} in
  assert (js_gt0 (velocity profile))
    "INVALID SCHEMA: Velocity must be a real number more than zero!" ;;;
  assert (strict_eq_str (mode profile) "Delay" || strict_eq_str (mode profile) "Auto")
    "INVALID SCHEMA: Mode must be 'Delay' or 'Auto'!" ;;;
  Ok profile.

Definition getVelocityProfiles (xmlDoc : node) : result (list VelocityProfile) :=
  for_of (getElementsByTagName xmlDoc "VelocityProfile")
    (fun output style =>
       profile <- velocityProfile_body style ;; Ok (output ++ [profile]))
    [].

(** The object literal of the [Wobble] block. *)
Definition readWobble (wobbleElem : node) : result Wobble :=
  o <- getMandatoryValueInteger wobbleElem "On" ;;
  f <- getMandatoryValueInteger wobbleElem "Freq" ;;
  s <- getMandatoryValueInteger wobbleElem "Shape" ;;
  ta <- getMandatoryValueFloat wobbleElem "TransAmp" ;;
  la <- getMandatoryValueFloat wobbleElem "LongAmp" ;;
  Ok {| on := o; freq := f; shape := s; transAmp := ta; longAmp := la |}.

(** The body of the loop over the [Traveler] elements.  The block under
    [if (wobbleCollection.length > 0)] declares a [const wobble] of its own;
    the traveler is built from the outer [let wobble = null]. *)
Definition traveler_body (travelerXML : node) : result Traveler :=
  let wobbleCollection := getElementsByTagName travelerXML "Wobble" in
  let wobble_outer : option Wobble := None in
  (match wobbleCollection with
   | wobbleElem :: _ =>
       wobble_inner <- readWobble wobbleElem ;;
       assert_on wobble_inner ;;;
       assert_shape wobble_inner
   | [] => Ok tt
   end) ;;;
  i <- getMandatoryValueInteger travelerXML "ID" ;;
  sd <- getOptionalValueInteger travelerXML "SyncDelay" ;;
  p <- getOptionalValueFloat travelerXML "Power" ;;
  sp <- getOptionalValueFloat travelerXML "SpotSize" ;;
  let traveler := {| tr_ID := i; syncDelay := sd; power := p; spotSize := sp;
                     wobble := wobble_outer |} in
  assert (negb (truthy (power traveler)) || js_ge0 (power traveler))
    "INVALID SCHEMA: Power must be a real number more than zero!" ;;;
  Ok traveler.

(** The body of the loop over the [SegmentStyle] elements. *)
Definition segmentStyle_body (style : node) : result SegmentStyle :=
  let travelersXML := getElementsByTagName style "Traveler" in
  trs <- (if (0 <? length travelersXML)%nat
          then for_of travelersXML
                 (fun trs travelerXML =>
                    traveler <- traveler_body travelerXML ;;
                    Ok (trs ++ [traveler]))
                 []
          else Ok []) ;;
  i <- getMandatoryValueString style "ID" ;;
  vp <- getMandatoryValueString style "VelocityProfileID" ;;
  lm <- (if negb (length trs =? 0)%nat
         then getOptionalValueString style "LaserMode"
         else Ok VUndefined) ;;
  let newSegmentStyle := {| ss_ID := i; velocityProfileID := vp;
                            laserMode := lm; travelers := trs |} in
  assert (negb (truthy (laserMode newSegmentStyle))
          || strict_eq_str (laserMode newSegmentStyle) "Independent"
          || strict_eq_str (laserMode newSegmentStyle) "FollowMe")
    "INVALID SCHEMA: LaserMode must be 'Independent' or 'FollowMe'!" ;;;
  Ok newSegmentStyle.

Definition getSegmentStyles (xmlDoc : node) : result (list SegmentStyle) :=
  for_of (getElementsByTagName xmlDoc "SegmentStyle")
    (fun output style =>
       newSegmentStyle <- segmentStyle_body style ;;
       Ok (output ++ [newSegmentStyle]))
    [].

Definition segment_body (st : cursor) (segmentXML : node) : result cursor :=
  x <- getMandatoryValueFloat segmentXML "X" ;;
  y <- getMandatoryValueFloat segmentXML "Y" ;;
  sid <- getOptionalValueString segmentXML "SegmentID" ;;
  sty <- getMandatoryValueString segmentXML "SegStyle" ;;
  let segment := {| x1 := lastX st; y1 := lastY st; x2 := x; y2 := y;
                    segmentID := sid; segStyle := sty |} in
  Ok {| lastX := x2 segment; lastY := y2 segment;
        pushed := pushed st ++ [segment] |}.

(** The body of the loop over the [Path] elements.  When there is no
    [Start] element, [start] is [undefined] and the accessor's first line
    throws a [TypeError]. *)
Definition path_body (pathXML : node) : result Path :=
  ty <- getMandatoryValueString pathXML "Type" ;;
  tg <- getMandatoryValueString pathXML "Tag" ;;
  ns <- getMandatoryValueInteger pathXML "NumSegments" ;;
  sw <- getMandatoryValueInteger pathXML "SkyWritingMode" ;;
  assert (strict_eq_str ty "hatch" || strict_eq_str ty "contour")
    "INVALID SCHEMA: Path Type must be 'hatch' or 'contour'!" ;;;
  assert (js_ge0 sw && js_le sw 3)
    "INVALID SCHEMA: SkyWritingMode must be 0, 1, 2, or 3!" ;;;
  match hd_error (getElementsByTagName pathXML "Start") with
  | None =>
      Err (TypeError
             "Cannot read properties of undefined (reading 'getElementsByTagName')")
  | Some start =>
      sx <- getMandatoryValueFloat start "X" ;;
      sy <- getMandatoryValueFloat start "Y" ;;
      st <- for_of (getElementsByTagName pathXML "Segment") segment_body
              {| lastX := sx; lastY := sy; pushed := [] |} ;;
      Ok {| type := ty; tag := tg; numSegments := ns; skyWritingMode := sw;
            segments := pushed st |}
  end.

(** The body of the loop over the [Trajectory] elements. *)
Definition trajectory_body (trajectoryXML : node) : result Trajectory :=
  ps <- for_of (getElementsByTagName trajectoryXML "Path")
          (fun ps pathXML => path <- path_body pathXML ;; Ok (ps ++ [path]))
          [] ;;
  i <- getMandatoryValueString trajectoryXML "TrajectoryID" ;;
  m <- getMandatoryValueString trajectoryXML "PathProcessingMode" ;;
  let trajectory := {| trajectoryID := i; pathProcessingMode := m;
                       paths := ps |} in
  assert (strict_eq_str (pathProcessingMode trajectory) "sequential"
          || strict_eq_str (pathProcessingMode trajectory) "concurrent")
    "INVALID SCHEMA: PathProcessingMode must be 'sequential' or 'concurrent'!" ;;;
  Ok trajectory.

Definition getTrajectories (doc : node) : result (list Trajectory) :=
  for_of (getElementsByTagName doc "Trajectory")
    (fun output trajectoryXML =>
       trajectory <- trajectory_body trajectoryXML ;;
       Ok (output ++ [trajectory]))
    [].

(** [LoadXML] from the parsed document on. *)
Definition LoadDocument (xmlDoc : node) : result Layer :=
  h <- getHeader xmlDoc ;;
  ss <- getSegmentStyles xmlDoc ;;
  vps <- getVelocityProfiles xmlDoc ;;
  ts <- getTrajectories xmlDoc ;;
  Ok {| header := h; segmentStyles := ss; velocityProfiles := vps;
        trajectories := ts |}.

End Accessor.
End Generic.

Definition getHeader := Generic.getHeader getMandatoryValue.
Definition velocityProfile_body := Generic.velocityProfile_body getMandatoryValue.
Definition getVelocityProfiles := Generic.getVelocityProfiles getMandatoryValue.
Definition readWobble := Generic.readWobble getMandatoryValue.
Definition traveler_body := Generic.traveler_body getMandatoryValue.
Definition segmentStyle_body := Generic.segmentStyle_body getMandatoryValue.
Definition getSegmentStyles := Generic.getSegmentStyles getMandatoryValue.
Definition segment_body := Generic.segment_body getMandatoryValue.
Definition path_body := Generic.path_body getMandatoryValue.
Definition trajectory_body := Generic.trajectory_body getMandatoryValue.
Definition getTrajectories := Generic.getTrajectories getMandatoryValue.
Definition LoadDocument := Generic.LoadDocument getMandatoryValue.

(* ================================================================= *)
(** ** The encoder ([src/index.ts], [ExportXML]) *)

Local Open Scope string_scope.

Definition nl : string := String (ascii_of_nat 10) EmptyString.
Definition dquote : string := String (ascii_of_nat 34) EmptyString.

Definition N_to_string (n : N) : string := NilZero.string_of_uint (N.to_uint n).

(** [k] digits of [n], zero-padded on the left. *)
Fixpoint pad_digits (k : nat) (n : N) : string :=
  match k with
  | O => EmptyString
  | S k' => pad_digits k' (n / 10) ++ N_to_string (n mod 10)
  end.

Fixpoint strip_zeros_rev (s : list ascii) : list ascii :=
  match s with
  | c :: r => if Ascii.eqb c "0"%char then strip_zeros_rev r else s
  | [] => []
  end.

Definition strip_trailing_zeros (s : string) : string :=
  string_of_list_ascii (rev (strip_zeros_rev (rev (list_ascii_of_string s)))).

(** [Number::toString]: positional notation of the decimal, which is what
    JavaScript prints for a binary64 value of at most 15 significant digits
    and magnitude in [1e-6, 1e21) (and for zero). *)
Definition NumberToString (x : number) : string :=
  match x with
  | NaN => "NaN"
  | Num neg m k =>
      let p := (10 ^ N.of_nat k)%N in
      let frac := strip_trailing_zeros (pad_digits k (m mod p)) in
      (if neg && negb (m =? 0)%N then "-" else "")
      ++ N_to_string (m / p)
      ++ (if nonempty frac then "." ++ frac else "")
  end.

(** Interpolation in a template literal. *)
Definition ToString (v : value) : string :=
  match v with
  | VUndefined => "undefined"
  | VNull => "null"
  | VString s => s
  | VNumber n => NumberToString n
  end.

(** One line [indent<name>value</name>\n]. *)
Definition line (indent name : string) (v : value) : string :=
  indent ++ "<" ++ name ++ ">" ++ ToString v ++ "</" ++ name ++ ">" ++ nl.

(** The same line, emitted only [if (v != null)]. *)
Definition line_opt (indent name : string) (v : value) : string :=
  if not_nullish v then line indent name v else "".

Definition GetHeaderString (layer : Layer) : string :=
  let h := header layer in
  "<Header>" ++ nl
  ++ line "  " "AmericaMakesSchemaVersion" (americaMakesSchemaVersion h)
  ++ line_opt "  " "LayerNum" (layerNum h)
  ++ line "  " "LayerThickness" (layerThickness h)
  ++ line_opt "  " "AbsoluteHeight" (absoluteHeight h)
  ++ line_opt "  " "DosingFactor" (dosingFactor h)
  ++ line_opt "  " "BuildDescription" (buildDescription h)
  ++ "</Header>" ++ nl.

Definition wobble_string (w : option Wobble) : string :=
  match w with
  | None => ""
  | Some w =>
      "      <Wobble>" ++ nl
      ++ line "        " "On" (on w)
      ++ line "        " "Freq" (freq w)
      ++ line "        " "Shape" (shape w)
      ++ line "        " "TransAmp" (transAmp w)
      ++ line "        " "LongAmp" (longAmp w)
      ++ "      </Wobble>" ++ nl
  end.

Definition traveler_string (traveler : Traveler) : string :=
  "    <Traveler>" ++ nl
  ++ line "      " "ID" (tr_ID traveler)
  ++ line_opt "      " "SyncDelay" (syncDelay traveler)
  ++ line_opt "      " "Power" (power traveler)
  ++ line_opt "      " "SpotSize" (spotSize traveler)
  ++ wobble_string (wobble traveler)
  ++ "    </Traveler>" ++ nl.

Definition segmentStyle_string (segmentStyle : SegmentStyle) : string :=
  "  <SegmentStyle>" ++ nl
  ++ line "    " "ID" (ss_ID segmentStyle)
  ++ line "    " "VelocityProfileID" (velocityProfileID segmentStyle)
  ++ line_opt "    " "LaserMode" (laserMode segmentStyle)
  ++ String.concat "" (map traveler_string (travelers segmentStyle))
  ++ "  </SegmentStyle>" ++ nl.

Definition GetSegmentStylesString (layer : Layer) : string :=
  "<SegmentStyleList>" ++ nl
  ++ String.concat "" (map segmentStyle_string (segmentStyles layer))
  ++ "</SegmentStyleList>" ++ nl.

Definition velocityProfile_string (velocityProfile : VelocityProfile) : string :=
  "  <VelocityProfile>" ++ nl
  ++ line "    " "ID" (vp_ID velocityProfile)
  ++ line "    " "Velocity" (velocity velocityProfile)
  ++ line "    " "Mode" (mode velocityProfile)
  ++ line "    " "LaserOnDelay" (laserOnDelay velocityProfile)
  ++ line "    " "LaserOffDelay" (laserOffDelay velocityProfile)
  ++ line "    " "JumpDelay" (jumpDelay velocityProfile)
  ++ line "    " "MarkDelay" (markDelay velocityProfile)
  ++ line "    " "PolygonDelay" (polygonDelay velocityProfile)
  ++ "  </VelocityProfile>" ++ nl.

Definition GetVelocityProfilesString (layer : Layer) : string :=
  "<VelocityProfileList>" ++ nl
  ++ String.concat "" (map velocityProfile_string (velocityProfiles layer))
  ++ "</VelocityProfileList>" ++ nl.

Definition segment_string (segment : Segment) : string :=
  "      <Segment>" ++ nl
  ++ line_opt "        " "SegmentID" (segmentID segment)
  ++ line "        " "SegStyle" (segStyle segment)
  ++ "        <End>" ++ nl
  ++ line "          " "X" (x2 segment)
  ++ line "          " "Y" (y2 segment)
  ++ "        </End>" ++ nl
  ++ "      </Segment>" ++ nl.

(** [path.segments[0].x1] throws when a path that declares segments has
    none. *)
Definition path_string (path : Path) : result string :=
  geometry <-
    (if js_gt0 (numSegments path) then
       match segments path with
       | [] =>
           Err (TypeError "Cannot read properties of undefined (reading 'x1')")
       | first :: _ =>
           Ok ("      <Start>" ++ nl
               ++ line "        " "X" (x1 first)
               ++ line "        " "Y" (y1 first)
               ++ "      </Start>" ++ nl
               ++ String.concat "" (map segment_string (segments path)))
       end
     else Ok "") ;;
  Ok ("    <Path>" ++ nl
      ++ line "      " "Type" (type path)
      ++ line "      " "Tag" (tag path)
      ++ line "      " "NumSegments" (numSegments path)
      ++ line "      " "SkyWritingMode" (skyWritingMode path)
      ++ geometry
      ++ "    </Path>" ++ nl).

Definition trajectory_string (trajectory : Trajectory) : result string :=
  ps <- traverse path_string (paths trajectory) ;;
  Ok ("  <Trajectory>" ++ nl
      ++ line "    " "TrajectoryID" (trajectoryID trajectory)
      ++ line "    " "PathProcessingMode" (pathProcessingMode trajectory)
      ++ String.concat "" ps
      ++ "  </Trajectory>" ++ nl).

Definition GetTrajectoriesString (layer : Layer) : result string :=
  ts <- traverse trajectory_string (trajectories layer) ;;
  Ok ("<TrajectoryList>" ++ nl ++ String.concat "" ts ++ "</TrajectoryList>" ++ nl).

Definition ExportXML (layer : Layer) : result string :=
  ts <- GetTrajectoriesString layer ;;
  Ok ("<?xml version=" ++ dquote ++ "1.0" ++ dquote
      ++ "?><!--Scan file created using OSU CDME's cdme-scangen-ui.-->" ++ nl
      ++ "<Layer>" ++ nl
      ++ GetHeaderString layer
      ++ GetSegmentStylesString layer
      ++ GetVelocityProfilesString layer
      ++ ts
      ++ nl ++ "</Layer>").

(* ================================================================= *)
(** ** The platform's [DOMParser], on the markup [ExportXML] writes

    [parseFromString] is the browser's.  The model covers the fragment the
    encoder emits: a prolog of processing instructions and comments, then
    elements without attributes holding character data and elements.
    Anything else ([&] references, attributes, empty-element tags, a [>]
    inside a comment) is answered with [None]. *)

Inductive token : Type :=
| TOpen (name : string)
| TClose (name : string)
| TChars (data : string).

Definition string_rev (s : string) : string :=
  string_of_list_ascii (rev (list_ascii_of_string s)).

Definition is_name_char (c : ascii) : bool :=
  let n := nat_of_ascii c in
  ((65 <=? n) && (n <=? 90) || (97 <=? n) && (n <=? 122)
   || (48 <=? n) && (n <=? 57) || (n =? 95) || (n =? 45) || (n =? 46))%nat.

Fixpoint all_name_chars (s : string) : bool :=
  match s with
  | EmptyString => true
  | String c r => is_name_char c && all_name_chars r
  end.

Definition is_name (s : string) : bool := nonempty s && all_name_chars s.

Definition ends_with (suffix s : string) : bool :=
  String.prefix (string_rev suffix) (string_rev s).

(** What stands between [<] and [>]: [Some None] for a processing
    instruction or comment, [Some (Some t)] for a tag. *)
Definition classify (m : string) : option (option token) :=
  match m with
  | String "?" _ => if ends_with "?" m then Some None else None
  | String "!" _ =>
      if String.prefix "!--" m && ends_with "--" m
         && (5 <=? String.length m)%nat
      then Some None else None
  | String "/" name => if is_name name then Some (Some (TClose name)) else None
  | _ => if is_name m then Some (Some (TOpen m)) else None
  end.

Definition flush (buf : string) (acc : list token) : list token :=
  if nonempty buf then TChars (string_rev buf) :: acc else acc.

(** The scanner: [markup] tells whether a [<] is open; [buf] and [acc] hold
    the pending characters and the tokens read, both latest first. *)
Fixpoint lex (s : string) (markup : bool) (buf : string) (acc : list token)
  : option (list token) :=
  match s with
  | EmptyString => if markup then None else Some (rev (flush buf acc))
  | String c r =>
      if markup then
        if Ascii.eqb c ">"%char then
          match classify (string_rev buf) with
          | Some None => lex r false "" acc
          | Some (Some t) => lex r false "" (t :: acc)
          | None => None
          end
        else if Ascii.eqb c "<"%char then None
        else lex r true (String c buf) acc
      else
        if Ascii.eqb c "<"%char then lex r true "" (flush buf acc)
        else if Ascii.eqb c "&"%char then None
        else lex r false (String c buf) acc
  end.

(** The tree builder: [stack] holds the open elements with the children
    each had when the next one opened, [cur] the children of the innermost
    open element, latest first. *)
Fixpoint build (toks : list token) (stack : list (string * list node))
  (cur : list node) : option (list node) :=
  match toks with
  | [] => match stack with
          | [] => Some (rev cur)
          | _ :: _ => None
          end
  | TChars d :: r => build r stack (Text d :: cur)
  | TOpen n :: r => build r ((n, cur) :: stack) []
  | TClose n :: r =>
      match stack with
      | (m, parent) :: st =>
          if String.eqb m n then build r st (Element n (rev cur) :: parent)
          else None
      | [] => None
      end
  end.

Definition is_space (c : ascii) : bool :=
  let n := nat_of_ascii c in
  ((n =? 32) || (n =? 9) || (n =? 10) || (n =? 13))%nat.

Fixpoint all_space (s : string) : bool :=
  match s with
  | EmptyString => true
  | String c r => is_space c && all_space r
  end.

(** Only white space may surround the root element. *)
Fixpoint document_root (top : list node) : option node :=
  match top with
  | [] => None
  | Text d :: r => if all_space d then document_root r else None
  | Element t cs :: r =>
      if forallb (fun n => match n with
                           | Text d => all_space d
                           | Element _ _ => false
                           end) r
      then Some (Element t cs) else None
  end.

Definition parseFromString (xmlStr : string) : option node :=
  match lex xmlStr false "" [] with
  | None => None
  | Some toks =>
      match build toks [] [] with
      | None => None
      | Some top => option_map Document (document_root top)
      end
  end.

(** [LoadXML]; [None] when the text is outside the parser model. *)
Definition LoadXML (xmlStr : string) : option (result Layer) :=
  option_map LoadDocument (parseFromString xmlStr).

(* ================================================================= *)
(** ** Vocabulary of the properties *)

Local Open Scope list_scope.

(** Structural equality of document nodes. *)
Fixpoint node_eqb (a b : node) : bool :=
  match a, b with
  | Text x, Text y => String.eqb x y
  | Element s cs, Element t ds =>
      String.eqb s t
      && (fix all_eqb (l1 l2 : list node) : bool :=
            match l1, l2 with
            | [], [] => true
            | x :: l1', y :: l2' => node_eqb x y && all_eqb l1' l2'
            | _, _ => false
            end) cs ds
  | _, _ => false
  end.

(** A field is missing for the accessor when the node it is read from has
    no descendant element of that name, or the first one has no text. *)
Definition absent_or_empty (owner : node) (tagName : string) : Prop :=
  match hd_error (getElementsByTagName owner tagName) with
  | None => True
  | Some n => textContent n = EmptyString
  end.

(** The message of the assertion that fails on such a field. *)
Definition field_message (owner : node) (tagName : string) : string :=
  match hd_error (getElementsByTagName owner tagName) with
  | None => mandatory_message tagName
  | Some _ => empty_message tagName
  end.

(** The accessor that reads [v] for the field [tagName] of [owner] and is
    [getMandatoryValue] everywhere else. *)
Definition supplied (owner : node) (tagName : string) (v : value)
  : node -> string -> option kind -> result value :=
  fun n t k =>
    if node_eqb n owner && String.eqb t tagName then Ok v
    else getMandatoryValue n t k.

(** The mandatory reads of a decoding run that meets no failure, each as
    the node read from and the tag name asked for. *)
Definition reads_of (owner : node) (tagNames : list string)
  : list (node * string) :=
  map (pair owner) tagNames.

Definition wobble_reads (travelerXML : node) : list (node * string) :=
  match getElementsByTagName travelerXML "Wobble" with
  | wobbleElem :: _ =>
      reads_of wobbleElem ["On"; "Freq"; "Shape"; "TransAmp"; "LongAmp"]
  | [] => []
  end.

Definition traveler_reads (travelerXML : node) : list (node * string) :=
  wobble_reads travelerXML ++ reads_of travelerXML ["ID"].

Definition segmentStyle_reads (style : node) : list (node * string) :=
  flat_map traveler_reads (getElementsByTagName style "Traveler")
  ++ reads_of style ["ID"; "VelocityProfileID"].

Definition velocityProfile_reads (style : node) : list (node * string) :=
  reads_of style ["ID"; "Velocity"; "Mode"; "LaserOnDelay"; "LaserOffDelay";
                  "JumpDelay"; "MarkDelay"; "PolygonDelay"].

Definition segment_reads (segmentXML : node) : list (node * string) :=
  reads_of segmentXML ["X"; "Y"; "SegStyle"].

Definition path_reads (pathXML : node) : list (node * string) :=
  reads_of pathXML ["Type"; "Tag"; "NumSegments"; "SkyWritingMode"]
  ++ match hd_error (getElementsByTagName pathXML "Start") with
     | Some start => reads_of start ["X"; "Y"]
     | None => []
     end
  ++ flat_map segment_reads (getElementsByTagName pathXML "Segment").

Definition trajectory_reads (trajectoryXML : node) : list (node * string) :=
  flat_map path_reads (getElementsByTagName trajectoryXML "Path")
  ++ reads_of trajectoryXML ["TrajectoryID"; "PathProcessingMode"].

Definition mandatory_reads (xmlDoc : node) : list (node * string) :=
  reads_of xmlDoc ["AmericaMakesSchemaVersion"; "LayerThickness"]
  ++ flat_map segmentStyle_reads (getElementsByTagName xmlDoc "SegmentStyle")
  ++ flat_map velocityProfile_reads (getElementsByTagName xmlDoc "VelocityProfile")
  ++ flat_map trajectory_reads (getElementsByTagName xmlDoc "Trajectory").

(** A mandatory read that an accessor answers with a value. *)
Definition read_ok (accessor : node -> string -> option kind -> result value)
  (p : node * string) : Prop :=
  exists k v, accessor (fst p) (snd p) k = Ok v.

(** [agrees_upto e r' r]: the run [r] ends as [r'] does, unless it stops
    with the exception [e]. *)
Definition agrees_upto (e : error) {A : Type} (r' r : result A) : Prop :=
  r = r' \/ r = Err e.

(** Cursor chaining, in the words of the format: the first segment starts
    at the cursor, ends at the point its element declares, and the rest is
    chained from that end point. *)
Fixpoint chained (cx cy : value) (segmentsXML : list node)
  (segs : list Segment) : Prop :=
  match segmentsXML, segs with
  | [], [] => True
  | e :: segmentsXML', s :: segs' =>
      x1 s = cx /\ y1 s = cy
      /\ getMandatoryValueFloat e "X" = Ok (x2 s)
      /\ getMandatoryValueFloat e "Y" = Ok (y2 s)
      /\ chained (x2 s) (y2 s) segmentsXML' segs'
  | _, _ => False
  end.

(** [subseq xs ys]: [xs] is [ys] with some items left out, order kept. *)
Inductive subseq {A : Type} : list A -> list A -> Prop :=
| subseq_nil : subseq [] []
| subseq_skip : forall xs y ys, subseq xs ys -> subseq xs (y :: ys)
| subseq_take : forall x xs ys, subseq xs ys -> subseq (x :: xs) (x :: ys).

(** The decimal a numeral stands for is positive. *)
Definition positive_decimal (s : string) : Prop :=
  exists m k, StringToNumber s = Num false m k /\ (0 < m)%N.

(* ================================================================= *)
(** ** Sample documents *)

Definition leaf (name text : string) : node := Element name [Text text].

Definition sample_header (thickness : string) : node :=
  Element "Header"
    [leaf "AmericaMakesSchemaVersion" "2020-03-23";
     leaf "LayerThickness" thickness].

Definition sample_profile (fields : list node) : node :=
  Element "VelocityProfile"
    ([leaf "ID" "vp1"] ++ fields
     ++ [leaf "Mode" "Auto"; leaf "LaserOnDelay" "1"; leaf "LaserOffDelay" "2";
         leaf "JumpDelay" "3"; leaf "MarkDelay" "4"; leaf "PolygonDelay" "5"]).

Definition sample_wobble (shapeText : string) : node :=
  Element "Wobble"
    [leaf "On" "0"; leaf "Freq" "100"; leaf "Shape" shapeText;
     leaf "TransAmp" "0.1"; leaf "LongAmp" "0.2"].

Definition sample_traveler (extra : list node) : node :=
  Element "Traveler" ([leaf "ID" "1"; leaf "Power" "100"] ++ extra).

(** A segment style with its own fields [own] and the travelers [trs]. *)
Definition sample_style (own trs : list node) : node :=
  Element "SegmentStyle" (own ++ trs).

Definition sample_segment (x y : string) : node :=
  Element "Segment"
    [leaf "SegStyle" "s1"; Element "End" [leaf "X" x; leaf "Y" y]].

Definition sample_path : node :=
  Element "Path"
    [leaf "Type" "hatch"; leaf "Tag" "part"; leaf "NumSegments" "2";
     leaf "SkyWritingMode" "0";
     Element "Start" [leaf "X" "0"; leaf "Y" "0"];
     sample_segment "1" "1"; sample_segment "2" "2"].

Definition sample_path2 : node :=
  Element "Path"
    [leaf "Type" "contour"; leaf "Tag" "rim"; leaf "NumSegments" "1";
     leaf "SkyWritingMode" "3";
     Element "Start" [leaf "X" "5"; leaf "Y" "5"];
     sample_segment "6" "-7.5"].

Definition sample_trajectory : node :=
  Element "Trajectory"
    [leaf "TrajectoryID" "t1"; leaf "PathProcessingMode" "sequential";
     sample_path; sample_path2].

Definition sample_document (thickness : string) (profileFields styles : list node)
  : node :=
  Document
    (Element "Layer"
       [sample_header thickness;
        Element "SegmentStyleList" styles;
        Element "VelocityProfileList" [sample_profile profileFields];
        Element "TrajectoryList" [sample_trajectory]]).

(** A style that declares [VelocityProfileID] and [LaserMode] but no [ID] of
    its own, around one traveler. *)
Definition style_without_ID : node :=
  sample_style [leaf "VelocityProfileID" "vp1"; leaf "LaserMode" "Independent"]
    [sample_traveler []].

(** A style with one traveler and no [LaserMode]. *)
Definition style_without_LaserMode : node :=
  sample_style [leaf "ID" "s1"; leaf "VelocityProfileID" "vp1"]
    [sample_traveler []].

(** A style with no traveler and no [LaserMode]: a jump. *)
Definition jump_style : node :=
  sample_style [leaf "ID" "jump"; leaf "VelocityProfileID" "vp1"] [].

(** A layer built by hand, with one traveler that wobbles. *)
Definition int (n : N) : value := VNumber (Num false n 0).

Definition wobble_layer : Layer := {|
  header := {| americaMakesSchemaVersion := VString "2020-03-23";
               layerNum := VUndefined;
               layerThickness := VNumber (Num false 5 1);
               absoluteHeight := VUndefined;
               dosingFactor := VUndefined;
               buildDescription := VUndefined |};
  velocityProfiles :=
    [ {| vp_ID := VString "vp1"; velocity := int 800; mode := VString "Auto";
         laserOnDelay := int 1; laserOffDelay := int 2; jumpDelay := int 3;
         markDelay := int 4; polygonDelay := int 5 |} ];
  segmentStyles :=
    [ {| ss_ID := VString "s1"; velocityProfileID := VString "vp1";
         laserMode := VString "Independent";
         travelers :=
           [ {| tr_ID := int 1; syncDelay := VUndefined; power := int 100;
                spotSize := VUndefined;
                wobble := Some {| on := int 1; freq := int 100; shape := int 0;
                                  transAmp := VNumber (Num false 25 2);
                                  longAmp := int 1 |} |} ] |} ];
  trajectories := []
|}.

(** The same layer with the wobble taken out and one trajectory added. *)
Definition plain_layer : Layer := {|
  header := header wobble_layer;
  velocityProfiles := velocityProfiles wobble_layer;
  segmentStyles :=
    [ {| ss_ID := VString "s1"; velocityProfileID := VString "vp1";
         laserMode := VString "Independent";
         travelers :=
           [ {| tr_ID := int 1; syncDelay := VUndefined; power := int 100;
                spotSize := VUndefined; wobble := None |} ] |} ];
  trajectories :=
    [ {| trajectoryID := VString "t1";
         pathProcessingMode := VString "sequential";
         paths :=
           [ {| type := VString "hatch"; tag := VString "part";
                numSegments := int 1; skyWritingMode := int 0;
                segments :=
                  [ {| x1 := int 0; y1 := int 0; x2 := int 1; y2 := int 1;
                       segmentID := VUndefined;
                       segStyle := VString "s1" |} ] |} ] |} ]
|}.

(** What [LoadXML] makes of the text [ExportXML] writes for [plain_layer]. *)
Definition plain_layer_decoded : Layer := {|
  header := {| americaMakesSchemaVersion := VString "2020-03-23";
               layerNum := VUndefined;
               layerThickness := VString "0.5";
               absoluteHeight := VUndefined;
               dosingFactor := VUndefined;
               buildDescription := VUndefined |};
  velocityProfiles :=
    [ {| vp_ID := VString "vp1"; velocity := VString "800";
         mode := VString "Auto"; laserOnDelay := VString "1";
         laserOffDelay := VString "2"; jumpDelay := VString "3";
         markDelay := VString "4"; polygonDelay := VString "5" |} ];
  segmentStyles :=
    [ {| ss_ID := VString "s1"; velocityProfileID := VString "vp1";
         laserMode := VString "Independent";
         travelers :=
           [ {| tr_ID := VString "1"; syncDelay := VUndefined;
                power := VString "100"; spotSize := VUndefined;
                wobble := None |} ] |} ];
  trajectories :=
    [ {| trajectoryID := VString "t1";
         pathProcessingMode := VString "sequential";
         paths :=
           [ {| type := VString "hatch"; tag := VString "part";
                numSegments := VString "1"; skyWritingMode := VString "0";
                segments :=
                  [ {| x1 := VString "0"; y1 := VString "0";
                       x2 := VString "1"; y2 := VString "1";
                       segmentID := VUndefined;
                       segStyle := VString "s1" |} ] |} ] |} ]
|}.

(** A layer whose only path has no segments. *)
Definition empty_path_layer : Layer := {|
  header := header wobble_layer;
  velocityProfiles := velocityProfiles wobble_layer;
  segmentStyles := [];
  trajectories :=
    [ {| trajectoryID := VString "t1";
         pathProcessingMode := VString "sequential";
         paths :=
           [ {| type := VString "hatch"; tag := VString "part";
                numSegments := int 0; skyWritingMode := int 0;
                segments := [] |} ] |} ]
|}.

(* ================================================================= *)
(** ** Vocabulary of the properties of decoded layers *)



(** The float numerals spelled out: a sign or none, digits, and either
    nothing more (then at least one digit) or a point and at least one
    digit. *)
Definition float_form (s : string) : Prop :=
  exists sg ip fp,
    s = (sg ++ ip ++ fp)%string
    /\ (sg = EmptyString \/ sg = "+"%string \/ sg = "-"%string)
    /\ all_digits ip = true
    /\ ((fp = EmptyString /\ nonempty ip = true)
        \/ exists f, fp = String "."%char f
                     /\ nonempty f = true /\ all_digits f = true).

(** A field that holds a non-empty text with a property. *)
Definition text_value (P : string -> Prop) (v : value) : Prop :=
  exists s, v = VString s /\ nonempty s = true /\ P s.

Definition undefined_or (P : value -> Prop) (v : value) : Prop :=
  v = VUndefined \/ P v.

Definition any_text (s : string) : Prop := True.
Definition is_digits (s : string) : Prop := all_digits s = true.
Definition is_float (s : string) : Prop := isFloatRegex s = true.
Definition is_positive (s : string) : Prop :=
  isFloatRegex s = true /\ positive_decimal s.
Definition is_date (s : string) : Prop := dateRegex s = true.
Definition is_one_of (words : list string) (s : string) : Prop := In s words.

(** Digits that spell a number up to [bound]. *)
Definition at_most (bound : N) (s : string) : Prop :=
  all_digits s = true /\ (digits_value 0 s <= bound)%N.

(** A float numeral that is not below zero, or so little below that it
    reads as [-0]. *)
Definition is_nonnegative (s : string) : Prop :=
  isFloatRegex s = true
  /\ exists neg m k,
       StringToNumber s = Num neg m k
       /\ (neg = true -> (m * 2 ^ underflow_exp <= 10 ^ N.of_nat k)%N).

(** What the decoder has checked of each record it returns. *)
Definition checked_header (h : Header) : Prop :=
  text_value is_date (americaMakesSchemaVersion h)
  /\ undefined_or (text_value is_digits) (layerNum h)
  /\ text_value is_positive (layerThickness h)
  /\ undefined_or (text_value is_positive) (absoluteHeight h)
  /\ undefined_or (text_value is_positive) (dosingFactor h)
  /\ undefined_or (text_value any_text) (buildDescription h).

Definition checked_profile (p : VelocityProfile) : Prop :=
  text_value any_text (vp_ID p)
  /\ text_value is_positive (velocity p)
  /\ text_value (is_one_of ["Delay"; "Auto"]%string) (mode p)
  /\ text_value is_float (laserOnDelay p)
  /\ text_value is_float (laserOffDelay p)
  /\ text_value is_float (jumpDelay p)
  /\ text_value is_float (markDelay p)
  /\ text_value is_float (polygonDelay p).

Definition checked_traveler (t : Traveler) : Prop :=
  text_value is_digits (tr_ID t)
  /\ undefined_or (text_value is_digits) (syncDelay t)
  /\ undefined_or (text_value is_nonnegative) (power t)
  /\ undefined_or (text_value is_float) (spotSize t)
  /\ wobble t = None.

Definition checked_style (s : SegmentStyle) : Prop :=
  text_value any_text (ss_ID s)
  /\ text_value any_text (velocityProfileID s)
  /\ undefined_or (text_value (is_one_of ["Independent"; "FollowMe"]%string))
       (laserMode s)
  /\ (travelers s = [] -> laserMode s = VUndefined)
  /\ Forall checked_traveler (travelers s).

Definition checked_segment (s : Segment) : Prop :=
  text_value is_float (x1 s) /\ text_value is_float (y1 s)
  /\ text_value is_float (x2 s) /\ text_value is_float (y2 s)
  /\ undefined_or (text_value any_text) (segmentID s)
  /\ text_value any_text (segStyle s).

Definition checked_path (p : Path) : Prop :=
  text_value (is_one_of ["hatch"; "contour"]%string) (type p)
  /\ text_value any_text (tag p)
  /\ text_value is_digits (numSegments p)
  /\ text_value (at_most 3) (skyWritingMode p)
  /\ Forall checked_segment (segments p).

Definition checked_trajectory (t : Trajectory) : Prop :=
  text_value any_text (trajectoryID t)
  /\ text_value (is_one_of ["sequential"; "concurrent"]%string)
       (pathProcessingMode t)
  /\ Forall checked_path (paths t).

(** Two segments that [ExportXML] writes alike: all but their start. *)
Definition written_alike (s s' : Segment) : Prop :=
  x2 s = x2 s' /\ y2 s = y2 s'
  /\ segmentID s = segmentID s' /\ segStyle s = segStyle s'.

(** Two paths that differ at most in the start points of the segments
    after the first. *)
Definition same_outline (p p' : Path) : Prop :=
  type p = type p' /\ tag p = tag p'
  /\ numSegments p = numSegments p' /\ skyWritingMode p = skyWritingMode p'
  /\ Forall2 written_alike (segments p) (segments p')
  /\ (forall s s', hd_error (segments p) = Some s ->
                   hd_error (segments p') = Some s' ->
                   x1 s = x1 s' /\ y1 s = y1 s').

(** A segment count for which the comparison [numSegments > 0] is
    modelled: a number, or a text that is a float numeral, as every decoded
    count is.  Other texts that JavaScript reads as numbers ([1e1], [0x10],
    a numeral between spaces) are left out. *)
Definition modelled_count (v : value) : Prop :=
  match v with
  | VString s => isFloatRegex s = true
  | _ => True
  end.

(** What [ExportXML] throws. *)
Definition x1_message : string :=
  "Cannot read properties of undefined (reading 'x1')".

(** A path that declares segments and has none. *)
Definition dangling (p : Path) : Prop :=
  js_gt0 (numSegments p) = true /\ segments p = [].

(** ** Further sample documents *)

(** A path that declares no segments and has neither a [Start] block nor
    a segment. *)
Definition path_without_Start : node :=
  Element "Path"
    [leaf "Type" "hatch"; leaf "Tag" "part"; leaf "NumSegments" "0";
     leaf "SkyWritingMode" "0"].

(** A style whose [LaserMode] is not a laser mode, with and without a
    traveler. *)
Definition style_with_bad_LaserMode (trs : list node) : node :=
  sample_style [leaf "ID" "s2"; leaf "VelocityProfileID" "vp1";
                leaf "LaserMode" "Pulsed"] trs.

(** A path that starts at (0,0), declares three segments and has one. *)
Definition short_path : node :=
  Element "Path"
    [leaf "Type" "hatch"; leaf "Tag" "part"; leaf "NumSegments" "3";
     leaf "SkyWritingMode" "03";
     Element "Start" [leaf "X" "0"; leaf "Y" "0"];
     sample_segment "1" "1"].

(** A document with three styles: a jump, a style with a traveler and no
    [LaserMode], and a jump that carries a [LaserMode] no style may have. *)
Definition three_styles_document : node :=
  sample_document "0.5" [leaf "Velocity" "800"]
    [jump_style; style_without_LaserMode; style_with_bad_LaserMode []].

(** A document whose second style has a traveler and a bad [LaserMode],
    and whose third style has no [ID]. *)
Definition two_bad_styles_document : node :=
  sample_document "0.5" [leaf "Velocity" "800"]
    [jump_style; style_with_bad_LaserMode [sample_traveler []];
     sample_style [] []].

(** A document with one trajectory around the given paths. *)
Definition paths_document (pathsXML : list node) : node :=
  Document
    (Element "Layer"
       [sample_header "0.5";
        Element "TrajectoryList"
          [Element "Trajectory"
             ([leaf "TrajectoryID" "t1";
               leaf "PathProcessingMode" "concurrent"] ++ pathsXML)]]).

(** A path with a [Start] block that declares three segments and has
    none. *)
Definition hollow_path : node :=
  Element "Path"
    [leaf "Type" "hatch"; leaf "Tag" "part"; leaf "NumSegments" "3";
     leaf "SkyWritingMode" "0";
     Element "Start" [leaf "X" "0"; leaf "Y" "0"]].

(** A layer, built by hand, whose path declares two segments and has none. *)
Definition dangling_layer : Layer := {|
  header := header wobble_layer;
  velocityProfiles := [];
  segmentStyles := [];
  trajectories :=
    [ {| trajectoryID := VString "t1";
         pathProcessingMode := VString "sequential";
         paths :=
           [ {| type := VString "hatch"; tag := VString "part";
                numSegments := int 2; skyWritingMode := int 0;
                segments := [] |} ] |} ]
|}.

(** Two paths over the same end points; in the second, the later segment
    does not start where the earlier one ends. *)
Definition chained_path : Path := {|
  type := VString "hatch"; tag := VString "part";
  numSegments := int 2; skyWritingMode := int 0;
  segments :=
    [ {| x1 := int 0; y1 := int 0; x2 := int 1; y2 := int 1;
         segmentID := VUndefined; segStyle := VString "s1" |};
      {| x1 := int 1; y1 := int 1; x2 := int 2; y2 := int 2;
         segmentID := VUndefined; segStyle := VString "s1" |} ]
|}.

Definition broken_path : Path := {|
  type := VString "hatch"; tag := VString "part";
  numSegments := int 2; skyWritingMode := int 0;
  segments :=
    [ {| x1 := int 0; y1 := int 0; x2 := int 1; y2 := int 1;
         segmentID := VUndefined; segStyle := VString "s1" |};
      {| x1 := int 7; y1 := int 9; x2 := int 2; y2 := int 2;
         segmentID := VUndefined; segStyle := VString "s1" |} ]
|}.

(* ================================================================= *)
(** * Properties *)

(** ** The exception monad and the loops *)

Lemma bind_Ok {A B} (m : result A) (k : A -> result B) (r : B) :
  bind m k = Ok r -> exists a, m = Ok a /\ k a = Ok r.
Proof.
  destruct m as [a | e]; simpl; intros H.
  - exists a; split; [reflexivity | exact H].
  - discriminate H.
Qed.

Lemma assert_Ok (c : bool) (msg : string) (u : unit) :
  assert c msg = Ok u -> c = true.
Proof.
  unfold assert; destruct c; [reflexivity | discriminate].
Qed.

(** Splits a hypothesis [x <- m ;; ... = Ok r] into its successful steps. *)
Ltac bind_inv H :=
  let a := fresh "a" in
  let Ha := fresh "Hstep" in
  apply bind_Ok in H; destruct H as [a [Ha H]].

Ltac binds_inv H := repeat bind_inv H.

Tactic Notation "step" hyp(H) "as" ident(x) ident(Hx) :=
  apply bind_Ok in H; destruct H as [x [Hx H]].

(** A loop that pushes one item per element is the traversal. *)
Lemma for_of_push {A B} (f : A -> result B) (xs : list A) (acc : list B) :
  for_of xs (fun out x => y <- f x ;; Ok (out ++ [y])) acc
  = (ys <- traverse f xs ;; Ok (acc ++ ys)).
Proof.
  revert acc; induction xs as [| x xs IH]; intros acc; simpl.
  - now rewrite app_nil_r.
  - destruct (f x) as [y | e]; simpl; [| reflexivity].
    rewrite IH. destruct (traverse f xs) as [ys | e]; simpl; [| reflexivity].
    now rewrite <- app_assoc.
Qed.

Lemma traverse_Forall2 {A B} (f : A -> result B) (xs : list A) (ys : list B) :
  traverse f xs = Ok ys <-> Forall2 (fun x y => f x = Ok y) xs ys.
Proof.
  revert ys; induction xs as [| x xs IH]; intros ys; simpl; split; intros H.
  - injection H as <-. constructor.
  - inversion H. reflexivity.
  - bind_inv H. bind_inv H. injection H as <-.
    constructor; [assumption | now apply IH].
  - inversion H as [| ? y ? ys' Hy Hys]; subst.
    rewrite Hy; simpl. apply IH in Hys. rewrite Hys. reflexivity.
Qed.

Lemma for_of_push_Forall2 {A B} (f : A -> result B) (xs : list A) (ys : list B) :
  for_of xs (fun out x => y <- f x ;; Ok (out ++ [y])) [] = Ok ys ->
  Forall2 (fun x y => f x = Ok y) xs ys.
Proof.
  rewrite for_of_push. intros H. bind_inv H. simpl in H. injection H as <-.
  now apply traverse_Forall2.
Qed.

Lemma Forall2_In_r {A B} (R : A -> B -> Prop) (xs : list A) (ys : list B) y :
  Forall2 R xs ys -> In y ys -> exists x, In x xs /\ R x y.
Proof.
  induction 1 as [| a b xs' ys' Hab _ IH]; simpl; intros Hin.
  - contradiction.
  - destruct Hin as [-> | Hin].
    + exists a; auto.
    + destruct (IH Hin) as [x [Hx HR]]. exists x; auto.
Qed.

(** ** Document trees *)

(** Induction over a tree together with the trees below it. *)
Lemma node_ind' (P : node -> Prop) :
  (forall d, P (Text d)) ->
  (forall t cs, Forall P cs -> P (Element t cs)) ->
  forall n, P n.
Proof.
  intros HT HE.
  fix IH 1. intros [t cs | d].
  - apply HE. induction cs as [| c cs IHcs]; constructor.
    + apply IH.
    + exact IHcs.
  - apply HT.
Qed.

Lemma node_eqb_eq (a b : node) : node_eqb a b = true <-> a = b.
Proof.
  revert b. induction a as [d | t cs IH] using node_ind'; intros [u ds | e];
    simpl; split; intros H; try discriminate; try congruence.
  - apply String.eqb_eq in H. now subst.
  - injection H as ->. apply String.eqb_refl.
  - apply andb_true_iff in H. destruct H as [Ht Hcs].
    apply String.eqb_eq in Ht. subst u. f_equal.
    revert ds Hcs. induction IH as [| c cs' Hc _ IHcs]; intros [| d ds] Hcs;
      try discriminate; [reflexivity |].
    apply andb_true_iff in Hcs. destruct Hcs as [Hcd Hrest].
    apply Hc in Hcd. subst d. f_equal. now apply IHcs.
  - injection H as -> ->. rewrite String.eqb_refl. simpl.
    induction IH as [| c cs' Hc _ IHcs]; [reflexivity |].
    rewrite IHcs, andb_true_r. now apply Hc.
Qed.

Lemma subtree_named (name : string) (n m : node) :
  In m (subtree name n) ->
  exists t cs, m = Element t cs /\ name_matches name t = true.
Proof.
  revert m. induction n as [d | t cs IH] using node_ind'; intros m; simpl.
  - contradiction.
  - intros Hin. apply in_app_or in Hin. destruct Hin as [Hin | Hin].
    + destruct (name_matches name t) eqn:E; simpl in Hin; [| contradiction].
      destruct Hin as [<- | []]. now exists t, cs.
    + apply in_flat_map in Hin. destruct Hin as [c [Hc Hm]].
      rewrite Forall_forall in IH. now apply (IH c Hc).
Qed.

(** Every element found is one the name asked for matches. *)
Lemma getElementsByTagName_named (xmlNode : node) (name : string) (m : node) :
  In m (getElementsByTagName xmlNode name) ->
  exists t cs, m = Element t cs /\ name_matches name t = true.
Proof.
  destruct xmlNode as [t cs | d]; simpl; [| contradiction].
  intros Hin. apply in_flat_map in Hin. destruct Hin as [c [_ Hm]].
  now apply subtree_named in Hm.
Qed.

(** Elements appended after the children come after them in the listing. *)
Lemma getElementsByTagName_app (t name : string) (cs extra : list node) :
  getElementsByTagName (Element t (cs ++ extra)) name
  = getElementsByTagName (Element t cs) name ++ flat_map (subtree name) extra.
Proof.
  simpl. apply flat_map_app.
Qed.

(** The children with a name are among the descendants with that name, in
    the same order. *)
Lemma children_subseq_descendants (xmlNode : node) (name : string) :
  subseq (childrenNamed xmlNode name) (getElementsByTagName xmlNode name).
Proof.
  destruct xmlNode as [t cs | d]; simpl; [| constructor].
  induction cs as [| c cs IH]; simpl; [constructor |].
  assert (Hskip : forall l, subseq (filter (fun c0 => match c0 with
                                       | Element t0 _ => String.eqb t0 name
                                       | Text _ => false
                                       end) cs)
                            (l ++ flat_map (subtree name) cs)).
  { intros l. induction l as [| x l IHl]; simpl; [exact IH |].
    now constructor. }
  destruct c as [u ds | d]; simpl.
  - unfold name_matches. destruct (String.eqb u name); simpl.
    + rewrite orb_true_r. simpl. apply subseq_take. apply Hskip.
    + rewrite orb_false_r.
      destruct (String.eqb name "*"); simpl;
        [apply subseq_skip |]; apply Hskip.
  - exact IH.
Qed.

(** ** The field accessors *)

(** What the typed accessors return once the first match is known. *)
Lemma getMandatoryValue_first (xmlNode : node) (tagName : string)
  (type : option kind) (first : node) (later : list node) :
  getElementsByTagName xmlNode tagName = first :: later ->
  getMandatoryValue xmlNode tagName type
  = (assert (nonempty (textContent first)) (empty_message tagName) ;;;
     validate tagName (textContent first) type ;;;
     Ok (VString (textContent first))).
Proof.
  intros H. unfold getMandatoryValue. rewrite H. reflexivity.
Qed.


Lemma getMandatoryValue_Ok (xmlNode : node) (tagName : string)
  (type : option kind) (v : value) :
  getMandatoryValue xmlNode tagName type = Ok v ->
  exists first later,
    getElementsByTagName xmlNode tagName = first :: later
    /\ nonempty (textContent first) = true
    /\ validate tagName (textContent first) type = Ok tt
    /\ v = VString (textContent first).
Proof.
  unfold getMandatoryValue.
  destruct (getElementsByTagName xmlNode tagName) as [| first later] eqn:E;
    simpl; [discriminate |].
  intros H. bind_inv H. apply assert_Ok in Hstep. bind_inv H.
  destruct a0. injection H as <-.
  exists first, later. auto.
Qed.

Lemma getOptionalValue_Ok (xmlNode : node) (tagName : string)
  (type : option kind) (v : value) :
  getOptionalValue xmlNode tagName type = Ok v ->
  v = VUndefined
  \/ exists first later,
       getElementsByTagName xmlNode tagName = first :: later
       /\ nonempty (textContent first) = true
       /\ validate tagName (textContent first) type = Ok tt
       /\ v = VString (textContent first).
Proof.
  unfold getOptionalValue.
  destruct (getElementsByTagName xmlNode tagName) as [| first later] eqn:E;
    simpl; [intros H; injection H as <-; now left |].
  destruct (nonempty (textContent first)) eqn:Hne.
  - intros H. bind_inv H. destruct a. injection H as <-.
    right. exists first, later. auto.
  - intros H. injection H as <-. now left.
Qed.

(** The first match among the children of an element, in document order:
    nothing before it matches, and nothing after it is looked at. *)
Lemma first_match_child (t name : string) (pre cs post : list node) :
  flat_map (subtree name) pre = [] ->
  getElementsByTagName (Element t (pre ++ Element name cs :: post)) name
  = Element name cs
      :: flat_map (subtree name) cs ++ flat_map (subtree name) post.
Proof.
  intros Hpre. simpl. rewrite flat_map_app, Hpre. simpl.
  unfold name_matches. rewrite String.eqb_refl, orb_true_r. simpl.
  now rewrite <- ?app_assoc.
Qed.



(** C2. A successful accessor returns the text content of the first
    match, as a string and never as a number: the value [cast] computes
    from it is not what is returned. *)
Theorem accessor_returns_text :
  forall (xmlNode : node) (tagName : string) (type : option kind) (v : value),
    getMandatoryValue xmlNode tagName type = Ok v
    \/ (getOptionalValue xmlNode tagName type = Ok v /\ v <> VUndefined) ->
    (exists first later,
        getElementsByTagName xmlNode tagName = first :: later
        /\ v = VString (textContent first))
    /\ forall n, v <> VNumber n.
Proof.
  intros xmlNode tagName type v [H | [H Hv]].
  - apply getMandatoryValue_Ok in H.
    destruct H as [first [later [E [_ [_ ->]]]]].
    split; [exists first, later; auto | discriminate].
  - apply getOptionalValue_Ok in H. destruct H as [-> | H]; [congruence |].
    destruct H as [first [later [E [_ [_ ->]]]]].
    split; [exists first, later; auto | discriminate].
Qed.

(** [<LayerThickness>0.5</LayerThickness>] read as a float. *)
Lemma accessor_returns_text_witness :
  getMandatoryValueFloat (sample_header "0.5") "LayerThickness"
  = Ok (VString "0.5")
  /\ cast "0.5" (Some KFloat) = VNumber (Num false 5 1)
  /\ forall n, VString "0.5" <> VNumber n.
Proof.
  split; [reflexivity | split; [reflexivity |]].
  apply (accessor_returns_text (sample_header "0.5") "LayerThickness"
           (Some KFloat) (VString "0.5")).
  left. reflexivity.
Defined.

(** ** Paths and trajectories *)

(** The loop over the segments extends what was pushed by a chain that
    starts at the cursor. *)
Lemma segment_loop_chained (segmentsXML : list node) (st st' : cursor) :
  for_of segmentsXML segment_body st = Ok st' ->
  exists segs,
    pushed st' = pushed st ++ segs
    /\ chained (lastX st) (lastY st) segmentsXML segs.
Proof.
  revert st; induction segmentsXML as [| e rest IH]; intros st; simpl.
  - intros H. injection H as <-. exists []. now rewrite app_nil_r.
  - intros H. bind_inv H.
    unfold segment_body, Generic.segment_body in Hstep.
    binds_inv Hstep. injection Hstep as <-.
    destruct (IH _ H) as [segs [Hp Hc]]. simpl in Hp, Hc.
    eexists (_ :: segs). split.
    + rewrite Hp, <- app_assoc. reflexivity.
    + simpl. repeat split; assumption.
Qed.

Lemma chained_length cx cy (segmentsXML : list node) (segs : list Segment) :
  chained cx cy segmentsXML segs -> length segs = length segmentsXML.
Proof.
  revert cx cy segs; induction segmentsXML as [| e xs IH];
    intros cx cy [| s segs]; simpl; try tauto.
  intros [_ [_ [_ [_ H]]]]. f_equal. eapply IH; eauto.
Qed.

Lemma chained_first cx cy (segmentsXML : list node) (segs : list Segment) s :
  chained cx cy segmentsXML segs ->
  nth_error segs 0 = Some s -> x1 s = cx /\ y1 s = cy.
Proof.
  destruct segmentsXML as [| e xs], segs as [| s0 segs]; simpl; try tauto;
    try discriminate.
  intros [Hx [Hy _]] H. injection H as <-. auto.
Qed.

Lemma chained_next cx cy (segmentsXML : list node) (segs : list Segment) i p s :
  chained cx cy segmentsXML segs ->
  nth_error segs i = Some p -> nth_error segs (S i) = Some s ->
  x1 s = x2 p /\ y1 s = y2 p.
Proof.
  revert cx cy segmentsXML segs; induction i as [| i IH];
    intros cx cy segmentsXML segs Hc Hp Hs.
  - destruct segmentsXML as [| e xs], segs as [| s0 segs]; simpl in *;
      try tauto; try discriminate.
    injection Hp as <-. destruct Hc as [_ [_ [_ [_ Hc]]]].
    eapply chained_first; eauto.
  - destruct segmentsXML as [| e xs], segs as [| s0 segs]; simpl in *;
      try tauto; try discriminate.
    destruct Hc as [_ [_ [_ [_ Hc]]]]. eapply IH; eauto.
Qed.

Lemma chained_end cx cy (segmentsXML : list node) (segs : list Segment) i e s :
  chained cx cy segmentsXML segs ->
  nth_error segmentsXML i = Some e -> nth_error segs i = Some s ->
  getMandatoryValueFloat e "X" = Ok (x2 s)
  /\ getMandatoryValueFloat e "Y" = Ok (y2 s).
Proof.
  revert cx cy segmentsXML segs; induction i as [| i IH];
    intros cx cy segmentsXML segs Hc He Hs;
    destruct segmentsXML as [| e0 xs], segs as [| s0 segs]; simpl in *;
    try tauto; try discriminate.
  - injection He as <-. injection Hs as <-. tauto.
  - destruct Hc as [_ [_ [_ [_ Hc]]]]. eapply IH; eauto.
Qed.

(** C3. In a decoded path, the first segment runs from the declared start
    point to the end point its element declares, and every later segment
    runs from the end point of the segment before it to its own; the
    segments are those of the [Segment] elements found below the path, its
    [Segment] children when none is nested deeper. *)
Theorem path_segments_chained :
  forall (pathXML : node) (path : Path),
    path_body pathXML = Ok path ->
    exists start sx sy,
      hd_error (getElementsByTagName pathXML "Start") = Some start
      /\ getMandatoryValueFloat start "X" = Ok sx
      /\ getMandatoryValueFloat start "Y" = Ok sy
      /\ chained sx sy (getElementsByTagName pathXML "Segment") (segments path)
      /\ length (segments path)
         = length (getElementsByTagName pathXML "Segment")
      /\ (forall s, nth_error (segments path) 0 = Some s ->
                    x1 s = sx /\ y1 s = sy)
      /\ (forall i p s,
             nth_error (segments path) i = Some p ->
             nth_error (segments path) (S i) = Some s ->
             x1 s = x2 p /\ y1 s = y2 p)
      /\ (forall i e s,
             nth_error (getElementsByTagName pathXML "Segment") i = Some e ->
             nth_error (segments path) i = Some s ->
             getMandatoryValueFloat e "X" = Ok (x2 s)
             /\ getMandatoryValueFloat e "Y" = Ok (y2 s))
      /\ (getElementsByTagName pathXML "Segment"
          = childrenNamed pathXML "Segment" ->
          chained sx sy (childrenNamed pathXML "Segment") (segments path)).
Proof.
  intros pathXML path H.
  unfold path_body, Generic.path_body in H.
  step H as ty Hty. step H as tg Htg. step H as ns Hns.
  step H as sw Hsw. step H as u1 Hu1. step H as u2 Hu2.
  destruct (hd_error (getElementsByTagName pathXML "Start")) as [start |];
    [| discriminate].
  step H as sx Hsx. step H as sy Hsy. step H as st Hst.
  injection H as <-. simpl.
  apply segment_loop_chained in Hst.
  destruct Hst as [segs [Hp Hc]]. simpl in Hp, Hc. rewrite Hp.
  exists start, sx, sy. repeat split; try assumption.
  - eapply chained_length; eauto.
  - eapply chained_first; eauto.
  - eapply chained_first; eauto.
  - eapply chained_next; eauto.
  - eapply chained_next; eauto.
  - eapply chained_end; eauto.
  - eapply chained_end; eauto.
  - intros <-. exact Hc.
Qed.

(** Start=(0,0), then segments ending at (1,1) and (2,2). *)
Lemma path_segments_chained_witness :
  path_body sample_path
  = Ok {| type := VString "hatch"; tag := VString "part";
          numSegments := VString "2"; skyWritingMode := VString "0";
          segments :=
            [ {| x1 := VString "0"; y1 := VString "0";
                 x2 := VString "1"; y2 := VString "1";
                 segmentID := VUndefined; segStyle := VString "s1" |};
              {| x1 := VString "1"; y1 := VString "1";
                 x2 := VString "2"; y2 := VString "2";
                 segmentID := VUndefined; segStyle := VString "s1" |} ] |}
  /\ exists start sx sy,
       hd_error (getElementsByTagName sample_path "Start") = Some start
       /\ getMandatoryValueFloat start "X" = Ok sx
       /\ getMandatoryValueFloat start "Y" = Ok sy
       /\ sx = VString "0" /\ sy = VString "0"
       /\ getElementsByTagName sample_path "Segment"
          = childrenNamed sample_path "Segment".
Proof.
  split; [vm_compute; reflexivity |].
  destruct (path_segments_chained sample_path _ eq_refl)
    as [start [sx [sy [Hs [Hx [Hy _]]]]]].
  exists start, sx, sy. repeat split; try assumption.
  - injection Hs as <-. vm_compute in Hx. now injection Hx as <-.
  - injection Hs as <-. vm_compute in Hy. now injection Hy as <-.
Defined.

Lemma Forall2_subseq {A B} (R : A -> B -> Prop) (xs ys : list A) (zs : list B) :
  subseq xs ys -> Forall2 R ys zs ->
  exists zs', subseq zs' zs /\ Forall2 R xs zs'.
Proof.
  intros Hsub; revert zs; induction Hsub as [| xs y ys _ IH | x xs ys _ IH];
    intros zs HF.
  - inversion HF; subst. exists []. split; constructor.
  - inversion HF as [| ? z ? zs0 _ HF']; subst.
    destruct (IH _ HF') as [zs' [Hs HR]].
    exists zs'. split; [now constructor | assumption].
  - inversion HF as [| ? z ? zs0 Hz HF']; subst.
    destruct (IH _ HF') as [zs' [Hs HR]].
    exists (z :: zs'). split; [now constructor | now constructor].
Qed.

(** C8. A decoded trajectory holds one path per [Path] element found
    below the [Trajectory] element, in document order; the [Path] children
    are among them, so each is decoded and they keep their order. *)
Theorem trajectory_keeps_every_path :
  forall (trajectoryXML : node) (trajectory : Trajectory),
    trajectory_body trajectoryXML = Ok trajectory ->
    Forall2 (fun pathXML path => path_body pathXML = Ok path)
      (getElementsByTagName trajectoryXML "Path") (paths trajectory)
    /\ length (paths trajectory)
       = length (getElementsByTagName trajectoryXML "Path")
    /\ exists decoded,
         subseq decoded (paths trajectory)
         /\ Forall2 (fun pathXML path => path_body pathXML = Ok path)
              (childrenNamed trajectoryXML "Path") decoded.
Proof.
  intros trajectoryXML trajectory H.
  unfold trajectory_body, Generic.trajectory_body in H.
  step H as ps Hps. step H as i Hi. step H as m Hm. step H as u Hu.
  injection H as <-. simpl.
  apply for_of_push_Forall2 in Hps.
  split; [exact Hps |]. split.
  - symmetry. eapply Forall2_length; eauto.
  - eapply Forall2_subseq; [apply children_subseq_descendants | exact Hps].
Qed.

(** A trajectory with two paths decodes to both, in order. *)
Lemma trajectory_keeps_every_path_witness :
  childrenNamed sample_trajectory "Path" = [sample_path; sample_path2]
  /\ exists t,
       trajectory_body sample_trajectory = Ok t
       /\ map tag (paths t) = [VString "part"; VString "rim"]
       /\ length (paths t)
          = length (getElementsByTagName sample_trajectory "Path").
Proof.
  split; [reflexivity |].
  eexists. split; [vm_compute; reflexivity |]. split; [reflexivity |].
  refine (proj1 (proj2 (trajectory_keeps_every_path sample_trajectory _ _))).
  vm_compute; reflexivity.
Defined.

(** ** Numerals *)

Lemma sign_not_digit (c : ascii) : is_sign c = true -> is_digit c = false.
Proof.
  unfold is_sign. intros H. apply orb_true_iff in H.
  destruct H as [H | H]; apply Ascii.eqb_eq in H; subst; reflexivity.
Qed.

Lemma span_all_digits (s : string) :
  all_digits s = true -> span_digits s = (s, EmptyString).
Proof.
  induction s as [| c r IH]; simpl; [reflexivity |].
  intros H. apply andb_true_iff in H. destruct H as [Hc Hr].
  rewrite Hc, (IH Hr). reflexivity.
Qed.

(** Text made of digits is read as the non-negative integer it spells. *)
Lemma digits_to_number (s : string) :
  all_digits s = true -> nonempty s = true ->
  StringToNumber s = Num false (digits_value 0 s) 0.
Proof.
  intros Hd Hn. destruct s as [| c r]; [discriminate |].
  assert (Hc : is_digit c = true) by (simpl in Hd; now destruct (is_digit c)).
  assert (Hs : is_sign c = false).
  { destruct (is_sign c) eqn:E; [| reflexivity].
    apply sign_not_digit in E. congruence. }
  assert (Hneg : Ascii.eqb c "-"%char = false).
  { unfold is_sign in Hs. apply orb_false_iff in Hs. tauto. }
  unfold StringToNumber, isFloatRegex, strip_sign, is_negative.
  rewrite Hs, Hneg, (span_all_digits _ Hd). reflexivity.
Qed.

Lemma validate_integer (nodeName text : string) :
  validate nodeName text (Some KInteger) = Ok tt -> all_digits text = true.
Proof.
  unfold validate; simpl. intros H. now apply assert_Ok in H.
Qed.

Lemma validate_float (nodeName text : string) :
  validate nodeName text (Some KFloat) = Ok tt -> isFloatRegex text = true.
Proof.
  unfold validate; simpl. intros H. bind_inv H. now apply assert_Ok in Hstep.
Qed.

(** A decimal that compares greater than zero is a positive decimal. *)
Lemma gt0_positive (s : string) :
  js_gt0 (VString s) = true -> positive_decimal s.
Proof.
  unfold js_gt0, positive_decimal; simpl.
  destruct (StringToNumber s) as [| neg m k]; simpl; [discriminate |].
  destruct neg; [discriminate |]. intros H.
  exists m, k. split; [reflexivity |].
  destruct (N.eq_dec m 0) as [-> | Hm]; [| lia].
  unfold rounds_to_zero in H. rewrite N.mul_0_l in H.
  assert (Hle : (0 <=? 10 ^ N.of_nat k)%N = true) by (apply N.leb_le; lia).
  rewrite Hle in H. discriminate.
Qed.

(** ** Segment styles, travelers and wobble *)

(** The mandatory accessors only ever hand text to the [Wobble] block. *)
Lemma readWobble_text (wobbleElem : node) (w : Wobble) :
  readWobble wobbleElem = Ok w ->
  (exists o, on w = VString o)
  /\ exists s, shape w = VString s /\ all_digits s = true /\ nonempty s = true.
Proof.
  unfold readWobble, Generic.readWobble. intros H.
  step H as o Ho. step H as f Hf. step H as s Hs. step H as ta Hta.
  step H as la Hla. injection H as <-. simpl.
  apply getMandatoryValue_Ok in Ho. destruct Ho as [n1 [l1 [_ [_ [_ ->]]]]].
  apply getMandatoryValue_Ok in Hs. destruct Hs as [n3 [l3 [_ [Hne [Hv ->]]]]].
  split; [eexists; reflexivity |].
  eexists. split; [reflexivity |]. split; [| exact Hne].
  eapply validate_integer; eauto.
Qed.

Lemma wobble_on_rejected (wobbleElem : node) (w : Wobble) :
  readWobble wobbleElem = Ok w ->
  assert_on w = Err (AssertionError "INVALID SCHEMA: Wobble On must be 0 or 1!").
Proof.
  intros H. apply readWobble_text in H. destruct H as [[o Ho] _].
  unfold assert_on. rewrite Ho. reflexivity.
Qed.

Lemma wobble_shape_rejected (wobbleElem : node) (w : Wobble) :
  readWobble wobbleElem = Ok w ->
  assert_shape w
  = Err (AssertionError "INVALID SCHEMA: Wobble Shape must be -1, 0, or 1!").
Proof.
  intros H. apply readWobble_text in H.
  destruct H as [_ [s [Hs [Hd Hn]]]].
  unfold assert_shape, js_ge, js_le. rewrite Hs. simpl.
  rewrite (digits_to_number _ Hd Hn). simpl.
  assert (Hle : (Z.of_N (digits_value 0 s) <=? -1)%Z = false)
    by (apply Z.leb_gt; lia).
  change (-1 * 1)%Z with (-1)%Z. rewrite Hle, andb_false_r. reflexivity.
Qed.

(** C7. Whatever a [Wobble] element declares as its shape, the block that
    checks it throws: the five fields are read as text, so [on === 0 ||
    on === 1] is false, and a shape that passed the integer check is a
    string of digits, which [shape >= -1 && shape <= -1] rejects. *)
Theorem wobble_never_accepted :
  forall (wobbleElem : node) (w : Wobble),
    readWobble wobbleElem = Ok w ->
    assert_on w
    = Err (AssertionError "INVALID SCHEMA: Wobble On must be 0 or 1!")
    /\ assert_shape w
       = Err (AssertionError "INVALID SCHEMA: Wobble Shape must be -1, 0, or 1!").
Proof.
  intros wobbleElem w H. split.
  - eapply wobble_on_rejected; eauto.
  - eapply wobble_shape_rejected; eauto.
Qed.

(** Shape 0 and 1 reach the two assertions and fail both; shape -1 is
    stopped by the integer check before them. *)
Lemma wobble_never_accepted_witness :
  (exists w, readWobble (sample_wobble "0") = Ok w
             /\ shape w = VString "0"
             /\ assert_shape w
                = Err (AssertionError
                         "INVALID SCHEMA: Wobble Shape must be -1, 0, or 1!"))
  /\ (exists w, readWobble (sample_wobble "1") = Ok w
                /\ assert_shape w
                   = Err (AssertionError
                            "INVALID SCHEMA: Wobble Shape must be -1, 0, or 1!"))
  /\ readWobble (sample_wobble "-1")
     = Err (AssertionError "Shape must be an integer")
  /\ traveler_body (sample_traveler [sample_wobble "0"])
     = Err (AssertionError "INVALID SCHEMA: Wobble On must be 0 or 1!").
Proof.
  split; [| split; [| split; reflexivity]].
  - eexists. split; [reflexivity |]. split; [reflexivity |].
    exact (proj2 (wobble_never_accepted (sample_wobble "0") _ eq_refl)).
  - eexists. split; [reflexivity |].
    exact (proj2 (wobble_never_accepted (sample_wobble "1") _ eq_refl)).
Defined.

Lemma validate_Err (nodeName text : string) (type : option kind) (e : error) :
  validate nodeName text type = Err e -> exists msg, e = AssertionError msg.
Proof.
  unfold validate, assert.
  destruct type as [[|] |]; simpl;
    repeat match goal with
           | |- context [if ?c then _ else _] => destruct c; simpl
           end;
    intros H; try discriminate; injection H as <-; eexists; reflexivity.
Qed.

(** The accessors fail with assertion errors only. *)
Lemma getMandatoryValue_Err (xmlNode : node) (tagName : string)
  (type : option kind) (e : error) :
  getMandatoryValue xmlNode tagName type = Err e ->
  exists msg, e = AssertionError msg.
Proof.
  unfold getMandatoryValue.
  destruct (hd_error (getElementsByTagName xmlNode tagName)) as [n |].
  - unfold assert. destruct (nonempty (textContent n)); simpl.
    + destruct (validate tagName (textContent n) type) eqn:E; simpl;
        [discriminate |].
      intros H. injection H as <-. eapply validate_Err; eauto.
    + intros H. injection H as <-. eexists; reflexivity.
  - intros H. injection H as <-. eexists; reflexivity.
Qed.

Lemma getOptionalValue_Err (xmlNode : node) (tagName : string)
  (type : option kind) (e : error) :
  getOptionalValue xmlNode tagName type = Err e ->
  exists msg, e = AssertionError msg.
Proof.
  unfold getOptionalValue.
  destruct (hd_error (getElementsByTagName xmlNode tagName)) as [n |];
    [| discriminate].
  destruct (nonempty (textContent n)); [| discriminate].
  destruct (validate tagName (textContent n) type) eqn:E; simpl;
    [discriminate |].
  intros H. injection H as <-. eapply validate_Err; eauto.
Qed.

(** Peels one step off a failed chain: either the step failed, with an
    assertion error, or the failure lies further on. *)
Ltac fail_step H :=
  match type of H with
  | bind ?m _ = Err _ =>
      let E := fresh "E" in
      destruct m eqn:E; simpl in H;
      [| injection H as <-;
         first [ eapply getMandatoryValue_Err; exact E
               | eapply getOptionalValue_Err; exact E ] ]
  end.

Lemma readWobble_Err (wobbleElem : node) (e : error) :
  readWobble wobbleElem = Err e -> exists msg, e = AssertionError msg.
Proof.
  unfold readWobble, Generic.readWobble,
    Generic.getMandatoryValueInteger, Generic.getMandatoryValueFloat.
  intros H. do 5 fail_step H. discriminate H.
Qed.

(** A traveler comes out of its loop body with no wobble. *)
Lemma traveler_body_wobble (travelerXML : node) (traveler : Traveler) :
  traveler_body travelerXML = Ok traveler -> wobble traveler = None.
Proof.
  unfold traveler_body, Generic.traveler_body. intros H.
  step H as u Hu. step H as i Hi. step H as sd Hsd. step H as p Hp.
  step H as sp Hsp. step H as c Hc. injection H as <-. reflexivity.
Qed.

(** C6. With a [Wobble] element below it, a [Traveler] element does not
    decode: reading the five fields or one of the two assertions throws.
    A traveler that does decode therefore had none, and its [wobble] is
    [null]. *)
Theorem traveler_wobble_is_lost :
  forall travelerXML : node,
    (forall wobbleElem rest,
        getElementsByTagName travelerXML "Wobble" = wobbleElem :: rest ->
        exists msg, traveler_body travelerXML = Err (AssertionError msg))
    /\ (forall traveler,
           traveler_body travelerXML = Ok traveler ->
           getElementsByTagName travelerXML "Wobble" = []
           /\ wobble traveler = None).
Proof.
  intros travelerXML.
  assert (Hfail : forall wobbleElem rest,
             getElementsByTagName travelerXML "Wobble" = wobbleElem :: rest ->
             exists msg, traveler_body travelerXML = Err (AssertionError msg)).
  { intros wobbleElem rest H.
    unfold traveler_body, Generic.traveler_body. rewrite H.
    destruct (Generic.readWobble getMandatoryValue wobbleElem) as [w | e] eqn:E;
      simpl.
    - apply wobble_on_rejected in E. rewrite E. simpl. eexists; reflexivity.
    - apply readWobble_Err in E. destruct E as [msg ->]. eexists; reflexivity. }
  split; [exact Hfail |].
  intros traveler H. split; [| eapply traveler_body_wobble; eauto].
  destruct (getElementsByTagName travelerXML "Wobble") as [| w rest] eqn:E;
    [reflexivity |].
  destruct (Hfail w rest eq_refl) as [msg Hm]. congruence.
Qed.

(** A traveler with all five wobble fields, and the same without them. *)
Lemma traveler_wobble_is_lost_witness :
  (exists msg,
      traveler_body (sample_traveler [sample_wobble "0"])
      = Err (AssertionError msg))
  /\ traveler_body (sample_traveler [])
     = Ok {| tr_ID := VString "1"; syncDelay := VUndefined;
             power := VString "100"; spotSize := VUndefined; wobble := None |}
  /\ wobble {| tr_ID := VString "1"; syncDelay := VUndefined;
               power := VString "100"; spotSize := VUndefined;
               wobble := None |} = None.
Proof.
  split; [| split; [reflexivity |]].
  - exact (proj1 (traveler_wobble_is_lost (sample_traveler [sample_wobble "0"]))
             (sample_wobble "0") [] eq_refl).
  - exact (proj2 (proj2 (traveler_wobble_is_lost (sample_traveler [])) _ eq_refl)).
Defined.

(** The travelers loop of a style, as a traversal. *)
Lemma segmentStyle_travelers (style : node) :
  (if (0 <? length (getElementsByTagName style "Traveler"))%nat
   then for_of (getElementsByTagName style "Traveler")
          (fun trs travelerXML =>
             traveler <- traveler_body travelerXML ;; Ok (trs ++ [traveler]))
          []
   else Ok [])
  = traverse traveler_body (getElementsByTagName style "Traveler").
Proof.
  destruct (getElementsByTagName style "Traveler") as [| t ts]; [reflexivity |].
  change (0 <? length (t :: ts))%nat with true. cbv iota.
  rewrite for_of_push.
  destruct (traverse traveler_body (t :: ts)); reflexivity.
Qed.

(** C4. A style without a [LaserMode] element decodes whenever its
    travelers, its [ID] and its [VelocityProfileID] do, with [laserMode]
    left undefined, whether it has travelers or not: the field is read with
    the optional accessor. *)
Theorem style_without_LaserMode_decodes :
  forall (style : node) (trs : list Traveler) (i vp : value),
    getElementsByTagName style "LaserMode" = [] ->
    traverse traveler_body (getElementsByTagName style "Traveler") = Ok trs ->
    getMandatoryValueString style "ID" = Ok i ->
    getMandatoryValueString style "VelocityProfileID" = Ok vp ->
    segmentStyle_body style
    = Ok {| ss_ID := i; velocityProfileID := vp; laserMode := VUndefined;
            travelers := trs |}.
Proof.
  intros style trs i vp Hlm Htrs Hi Hvp.
  unfold segmentStyle_body, Generic.segmentStyle_body.
  change (Generic.traveler_body getMandatoryValue) with traveler_body.
  rewrite segmentStyle_travelers, Htrs. simpl.
  unfold Generic.getMandatoryValueString.
  unfold getMandatoryValueString in Hi, Hvp. rewrite Hi, Hvp. simpl.
  unfold getOptionalValueString, getOptionalValue. rewrite Hlm. simpl.
  destruct (negb (length trs =? 0)%nat); reflexivity.
Qed.

(** One traveler and no [LaserMode]; no traveler and no [LaserMode]. *)
Lemma style_without_LaserMode_decodes_witness :
  segmentStyle_body style_without_LaserMode
  = Ok {| ss_ID := VString "s1"; velocityProfileID := VString "vp1";
          laserMode := VUndefined;
          travelers :=
            [ {| tr_ID := VString "1"; syncDelay := VUndefined;
                 power := VString "100"; spotSize := VUndefined;
                 wobble := None |} ] |}
  /\ segmentStyle_body jump_style
     = Ok {| ss_ID := VString "jump"; velocityProfileID := VString "vp1";
             laserMode := VUndefined; travelers := [] |}.
Proof.
  split.
  - exact (style_without_LaserMode_decodes style_without_LaserMode _ _ _
             eq_refl eq_refl eq_refl eq_refl).
  - exact (style_without_LaserMode_decodes jump_style _ _ _
             eq_refl eq_refl eq_refl eq_refl).
Defined.

(** The older accessor, which [alsam-xml.js] uses for [LaserMode] when a
    style has travelers, throws on the same style. *)
Lemma legacy_LaserMode_is_mandatory :
  Legacy.getMandatoryValue style_without_LaserMode "LaserMode"
  = Err (Error
           "INVALID SCHEMA: Mandatory tag LaserMode not found in XML as child of tag SegmentStyle").
Proof. reflexivity. Qed.

(** ** The header *)

Lemma getHeader_Err (xmlDoc : node) (e : error) :
  getHeader xmlDoc = Err e -> exists msg, e = AssertionError msg.
Proof.
  unfold getHeader, Generic.getHeader, Generic.getMandatoryValueString,
    Generic.getMandatoryValueFloat, getOptionalValueInteger,
    getOptionalValueFloat, getOptionalValueString.
  intros H. do 6 fail_step H. unfold assert in H.
  repeat match type of H with
         | context [if ?c then _ else _] => destruct c; simpl in H
         end;
    try discriminate; injection H as <-; eexists; reflexivity.
Qed.

(** A decoded header holds the thickness as the text of the first
    [LayerThickness] element, a float numeral that compares greater than
    zero. *)
Lemma getHeader_thickness (xmlDoc : node) (h : Header) :
  getHeader xmlDoc = Ok h ->
  exists first later,
    getElementsByTagName xmlDoc "LayerThickness" = first :: later
    /\ layerThickness h = VString (textContent first)
    /\ isFloatRegex (textContent first) = true
    /\ js_gt0 (VString (textContent first)) = true.
Proof.
  unfold getHeader, Generic.getHeader. intros H.
  step H as v Hv. step H as n Hn. step H as t Ht. step H as ah Hah.
  step H as d Hd. step H as b Hb. step H as u1 Hu1. step H as u2 Hu2.
  step H as u3 Hu3. step H as u4 Hu4. injection H as <-. simpl in *.
  apply assert_Ok in Hu2.
  apply getMandatoryValue_Ok in Ht.
  destruct Ht as [first [later [Hfirst [_ [Hval ->]]]]].
  exists first, later. split; [exact Hfirst |]. split; [reflexivity |].
  split; [eapply validate_float; eauto | exact Hu2].
Qed.

Lemma half_gt0 : js_gt0 (VString "0.5") = true.
Proof. vm_compute. reflexivity. Qed.

Lemma LoadDocument_header (xmlDoc : node) (L : Layer) :
  LoadDocument xmlDoc = Ok L -> getHeader xmlDoc = Ok (header L).
Proof.
  unfold LoadDocument, Generic.LoadDocument. intros H.
  step H as h Hh. step H as ss Hss. step H as vps Hvps. step H as ts Hts.
  injection H as <-. exact Hh.
Qed.

(** C9. A [LayerThickness] of -1.0 makes decoding throw an assertion
    error; with 0.5, and the rest of the document in order, decoding
    succeeds; and the thickness of every decoded layer is a float numeral
    whose value is greater than zero. *)
Theorem layer_thickness_positive :
  (forall (xmlDoc first : node) (later : list node),
      getElementsByTagName xmlDoc "LayerThickness" = first :: later ->
      textContent first = "-1.0"%string ->
      exists msg, LoadDocument xmlDoc = Err (AssertionError msg))
  /\ (forall (xmlDoc first : node) (later : list node)
             (ver : string) (ln ah df bd : value)
             (ss : list SegmentStyle) (vps : list VelocityProfile)
             (ts : list Trajectory),
         getElementsByTagName xmlDoc "LayerThickness" = first :: later ->
         textContent first = "0.5"%string ->
         getMandatoryValueString xmlDoc "AmericaMakesSchemaVersion"
         = Ok (VString ver) ->
         dateRegex ver = true ->
         getOptionalValueInteger xmlDoc "LayerNum" = Ok ln ->
         getOptionalValueFloat xmlDoc "AbsoluteHeight" = Ok ah ->
         negb (truthy ah) || js_gt0 ah = true ->
         getOptionalValueFloat xmlDoc "DosingFactor" = Ok df ->
         negb (truthy df) || js_gt0 df = true ->
         getOptionalValueString xmlDoc "BuildDescription" = Ok bd ->
         getSegmentStyles xmlDoc = Ok ss ->
         getVelocityProfiles xmlDoc = Ok vps ->
         getTrajectories xmlDoc = Ok ts ->
         LoadDocument xmlDoc
         = Ok {| header := {| americaMakesSchemaVersion := VString ver;
                              layerNum := ln;
                              layerThickness := VString "0.5";
                              absoluteHeight := ah;
                              dosingFactor := df;
                              buildDescription := bd |};
                 velocityProfiles := vps;
                 segmentStyles := ss;
                 trajectories := ts |})
  /\ (forall (xmlDoc : node) (L : Layer),
         LoadDocument xmlDoc = Ok L ->
         exists s, layerThickness (header L) = VString s
                   /\ isFloatRegex s = true
                   /\ positive_decimal s).
Proof.
  split; [| split].
  - intros xmlDoc first later Hfirst Htext.
    unfold LoadDocument, Generic.LoadDocument.
    change (Generic.getHeader getMandatoryValue xmlDoc) with (getHeader xmlDoc).
    destruct (getHeader xmlDoc) as [h | e] eqn:E; simpl.
    + exfalso. apply getHeader_thickness in E.
      destruct E as [first' [later' [Hf [_ [_ Hgt]]]]].
      rewrite Hfirst in Hf. injection Hf as <- <-.
      rewrite Htext in Hgt. vm_compute in Hgt. discriminate Hgt.
    + apply getHeader_Err in E. destruct E as [msg ->]. eexists; reflexivity.
  - intros xmlDoc first later ver ln ah df bd ss vps ts
      Hfirst Htext Hver Hdate Hln Hah Hahpos Hdf Hdfpos Hbd Hss Hvps Hts.
    assert (Hthick : getMandatoryValueFloat xmlDoc "LayerThickness"
                     = Ok (VString "0.5")).
    { unfold getMandatoryValueFloat.
      rewrite (getMandatoryValue_first _ _ _ _ _ Hfirst), Htext. reflexivity. }
    unfold LoadDocument, Generic.LoadDocument, Generic.getHeader.
    change (Generic.getMandatoryValueString getMandatoryValue)
      with getMandatoryValueString.
    change (Generic.getMandatoryValueFloat getMandatoryValue)
      with getMandatoryValueFloat.
    change (Generic.getSegmentStyles getMandatoryValue) with getSegmentStyles.
    change (Generic.getVelocityProfiles getMandatoryValue)
      with getVelocityProfiles.
    change (Generic.getTrajectories getMandatoryValue) with getTrajectories.
    rewrite Hver, Hln, Hthick, Hah, Hdf, Hbd.
    cbn [bind americaMakesSchemaVersion layerThickness absoluteHeight
         dosingFactor].
    rewrite Hdate, half_gt0, Hahpos, Hdfpos.
    cbn [bind assert]. rewrite Hss, Hvps, Hts. reflexivity.
  - intros xmlDoc L H. apply LoadDocument_header in H.
    apply getHeader_thickness in H.
    destruct H as [first [later [_ [Ht [Hf Hgt]]]]].
    exists (textContent first). split; [exact Ht |]. split; [exact Hf |].
    now apply gt0_positive.
Qed.

(** The sample document with a thickness of -1.0, and with 0.5. *)
Lemma layer_thickness_positive_witness :
  (exists msg,
      LoadDocument (sample_document "-1.0" [leaf "Velocity" "800"] [jump_style])
      = Err (AssertionError msg))
  /\ (exists L,
         LoadDocument (sample_document "0.5" [leaf "Velocity" "800"] [jump_style])
         = Ok L
         /\ layerThickness (header L) = VString "0.5"
         /\ exists s, layerThickness (header L) = VString s
                      /\ isFloatRegex s = true /\ positive_decimal s).
Proof.
  split.
  - exact (proj1 layer_thickness_positive
             (sample_document "-1.0" [leaf "Velocity" "800"] [jump_style])
             (leaf "LayerThickness" "-1.0") [] eq_refl eq_refl).
  - assert (H : exists L,
               LoadDocument
                 (sample_document "0.5" [leaf "Velocity" "800"] [jump_style])
               = Ok L /\ layerThickness (header L) = VString "0.5").
    { eexists. split.
      - refine (proj1 (proj2 layer_thickness_positive)
                  (sample_document "0.5" [leaf "Velocity" "800"] [jump_style])
                  (leaf "LayerThickness" "0.5") [] "2020-03-23"
                  VUndefined VUndefined VUndefined VUndefined _ _ _
                  eq_refl eq_refl eq_refl eq_refl eq_refl eq_refl eq_refl
                  eq_refl eq_refl eq_refl _ _ _);
          vm_compute; reflexivity.
      - reflexivity. }
    destruct H as [L [HL Ht]]. exists L. split; [exact HL |].
    split; [exact Ht |].
    exact (proj2 (proj2 layer_thickness_positive) _ L HL).
Defined.

(** ** Mandatory fields *)

Lemma for_of_each {A S} (body : S -> A -> result S) (xs : list A) (s s' : S) :
  for_of xs body s = Ok s' ->
  Forall (fun x => exists s1 s2, body s1 x = Ok s2) xs.
Proof.
  revert s; induction xs as [| x xs IH]; intros s; simpl; intros H.
  - constructor.
  - step H as s1 Hs1. constructor; [eauto | eapply IH; eauto].
Qed.

Lemma for_of_push_each {A B} (f : A -> result B) (xs : list A) (ys : list B) :
  for_of xs (fun out x => y <- f x ;; Ok (out ++ [y])) [] = Ok ys ->
  Forall (fun x => exists y, f x = Ok y) xs.
Proof.
  intros H. apply for_of_push_Forall2 in H.
  induction H; constructor; eauto.
Qed.

Section Reads.

Variable accessor : node -> string -> option kind -> result value.

Ltac reads_done :=
  repeat constructor; do 2 eexists; simpl; eassumption.

Lemma velocityProfile_reads_ok (style : node) (p : VelocityProfile) :
  Generic.velocityProfile_body accessor style = Ok p ->
  Forall (read_ok accessor) (velocityProfile_reads style).
Proof.
  unfold Generic.velocityProfile_body, Generic.getMandatoryValueString,
    Generic.getMandatoryValueFloat. intros H.
  step H as i Hi. step H as v Hv. step H as m Hm. step H as lon Hlon.
  step H as loff Hloff. step H as j Hj. step H as mk Hmk. step H as pd Hpd.
  unfold velocityProfile_reads, reads_of, read_ok. simpl. reads_done.
Qed.

Lemma traveler_reads_ok (travelerXML : node) (t : Traveler) :
  Generic.traveler_body accessor travelerXML = Ok t ->
  Forall (read_ok accessor) (traveler_reads travelerXML).
Proof.
  unfold Generic.traveler_body, Generic.readWobble,
    Generic.getMandatoryValueInteger, Generic.getMandatoryValueFloat.
  intros H. step H as u Hu. step H as i Hi.
  unfold traveler_reads, wobble_reads, reads_of, read_ok.
  apply Forall_app. split; [| simpl; reads_done].
  destruct (getElementsByTagName travelerXML "Wobble") as [| w rest];
    [constructor |].
  step Hu as w' Hw. step Hw as o Ho. step Hw as f Hf. step Hw as s Hs.
  step Hw as ta Hta. step Hw as la Hla. simpl. reads_done.
Qed.

Lemma segmentStyle_reads_ok (style : node) (ss : SegmentStyle) :
  Generic.segmentStyle_body accessor style = Ok ss ->
  Forall (read_ok accessor) (segmentStyle_reads style).
Proof.
  unfold Generic.segmentStyle_body, Generic.getMandatoryValueString.
  intros H. step H as trs Htrs. step H as i Hi. step H as vp Hvp.
  unfold segmentStyle_reads. apply Forall_app. split.
  - apply Forall_flat_map.
    destruct (getElementsByTagName style "Traveler") as [| t ts] eqn:E;
      [constructor |].
    change (0 <? length (t :: ts))%nat with true in Htrs. cbv iota in Htrs.
    apply for_of_push_each in Htrs.
    eapply Forall_impl; [| exact Htrs].
    intros x [y Hy]. eapply traveler_reads_ok; eauto.
  - unfold reads_of, read_ok. simpl. reads_done.
Qed.

Lemma segment_reads_ok (st st' : cursor) (segmentXML : node) :
  Generic.segment_body accessor st segmentXML = Ok st' ->
  Forall (read_ok accessor) (segment_reads segmentXML).
Proof.
  unfold Generic.segment_body, Generic.getMandatoryValueString,
    Generic.getMandatoryValueFloat. intros H.
  step H as x Hx. step H as y Hy. step H as sid Hsid. step H as sty Hsty.
  unfold segment_reads, reads_of, read_ok. simpl. reads_done.
Qed.

Lemma path_reads_ok (pathXML : node) (p : Path) :
  Generic.path_body accessor pathXML = Ok p ->
  Forall (read_ok accessor) (path_reads pathXML).
Proof.
  unfold Generic.path_body, Generic.getMandatoryValueString,
    Generic.getMandatoryValueInteger. intros H.
  step H as ty Hty. step H as tg Htg. step H as ns Hns. step H as sw Hsw.
  step H as u1 Hu1. step H as u2 Hu2.
  unfold path_reads. apply Forall_app. split;
    [unfold reads_of, read_ok; simpl; reads_done |].
  destruct (hd_error (getElementsByTagName pathXML "Start")) as [start |];
    [| discriminate].
  unfold Generic.getMandatoryValueFloat in H.
  step H as sx Hsx. step H as sy Hsy. step H as st Hst.
  apply Forall_app. split; [unfold reads_of, read_ok; simpl; reads_done |].
  apply Forall_flat_map. apply for_of_each in Hst.
  eapply Forall_impl; [| exact Hst].
  intros e [s1 [s2 Hs]]. eapply segment_reads_ok; eauto.
Qed.

Lemma trajectory_reads_ok (trajectoryXML : node) (t : Trajectory) :
  Generic.trajectory_body accessor trajectoryXML = Ok t ->
  Forall (read_ok accessor) (trajectory_reads trajectoryXML).
Proof.
  unfold Generic.trajectory_body, Generic.getMandatoryValueString.
  intros H. step H as ps Hps. step H as i Hi. step H as m Hm.
  unfold trajectory_reads. apply Forall_app. split.
  - apply Forall_flat_map. apply for_of_push_each in Hps.
    eapply Forall_impl; [| exact Hps].
    intros x [y Hy]. eapply path_reads_ok; eauto.
  - unfold reads_of, read_ok. simpl. reads_done.
Qed.

(** A run that returns a layer was given a value at every mandatory
    read. *)
Lemma mandatory_reads_ok (xmlDoc : node) (L : Layer) :
  Generic.LoadDocument accessor xmlDoc = Ok L ->
  Forall (read_ok accessor) (mandatory_reads xmlDoc).
Proof.
  unfold Generic.LoadDocument. intros H.
  step H as h Hh. step H as ss Hss. step H as vps Hvps. step H as ts Hts.
  unfold mandatory_reads. repeat (apply Forall_app; split).
  - unfold Generic.getHeader, Generic.getMandatoryValueString,
      Generic.getMandatoryValueFloat in Hh.
    step Hh as v Hv. step Hh as n Hn. step Hh as t Ht.
    unfold reads_of, read_ok. simpl. reads_done.
  - apply Forall_flat_map. apply for_of_push_each in Hss.
    eapply Forall_impl; [| exact Hss].
    intros x [y Hy]. eapply segmentStyle_reads_ok; eauto.
  - apply Forall_flat_map. apply for_of_push_each in Hvps.
    eapply Forall_impl; [| exact Hvps].
    intros x [y Hy]. eapply velocityProfile_reads_ok; eauto.
  - apply Forall_flat_map. apply for_of_push_each in Hts.
    eapply Forall_impl; [| exact Hts].
    intros x [y Hy]. eapply trajectory_reads_ok; eauto.
Qed.

End Reads.

(** The assertion that fails on a missing field names its tag. *)
Lemma missing_field_throws (owner : node) (tagName : string) (type : option kind) :
  absent_or_empty owner tagName ->
  getMandatoryValue owner tagName type
  = Err (AssertionError (field_message owner tagName)).
Proof.
  unfold absent_or_empty, field_message, getMandatoryValue.
  destruct (hd_error (getElementsByTagName owner tagName)) as [n |];
    [| reflexivity].
  intros ->. reflexivity.
Qed.

Lemma agrees_refl (e : error) {A} (r : result A) : agrees_upto e r r.
Proof. now left. Qed.

Lemma agrees_bind (e : error) {A B} (m' m : result A) (k' k : A -> result B) :
  agrees_upto e m' m ->
  (forall a, agrees_upto e (k' a) (k a)) ->
  agrees_upto e (bind m' k') (bind m k).
Proof.
  intros [-> | ->] Hk; [| now right].
  destruct m' as [a | e']; simpl; [apply Hk | now left].
Qed.

Lemma agrees_for_of (e : error) {A S} (body' body : S -> A -> result S)
  (xs : list A) (s : S) :
  (forall s x, agrees_upto e (body' s x) (body s x)) ->
  agrees_upto e (for_of xs body' s) (for_of xs body s).
Proof.
  intros Hb. revert s; induction xs as [| x xs IH]; intros s; simpl.
  - apply agrees_refl.
  - apply agrees_bind; [apply Hb | intros; apply IH].
Qed.

Create HintDb agree discriminated.
#[local] Hint Resolve agrees_refl : agree.

Section Agreement.

Variable e : error.
Variables other accessor : node -> string -> option kind -> result value.
Hypothesis Haccessor :
  forall n t k, agrees_upto e (other n t k) (accessor n t k).

(** Descends through the binds, loops and branches the two runs share. *)
Ltac agree :=
  repeat first
    [ solve [auto with agree]
    | apply Haccessor
    | apply agrees_bind; [| intros]
    | apply agrees_for_of; intros
    | match goal with
      | |- agrees_upto _ (if ?c then _ else _) (if ?c then _ else _) =>
          destruct c
      | |- agrees_upto _ (match ?x with _ => _ end) (match ?x with _ => _ end) =>
          destruct x
      end ].

Lemma getHeader_agrees (xmlDoc : node) :
  agrees_upto e (Generic.getHeader other xmlDoc)
    (Generic.getHeader accessor xmlDoc).
Proof.
  unfold Generic.getHeader, Generic.getMandatoryValueString,
    Generic.getMandatoryValueFloat. agree.
Qed.

Lemma getVelocityProfiles_agrees (xmlDoc : node) :
  agrees_upto e (Generic.getVelocityProfiles other xmlDoc)
    (Generic.getVelocityProfiles accessor xmlDoc).
Proof.
  unfold Generic.getVelocityProfiles, Generic.velocityProfile_body,
    Generic.getMandatoryValueString, Generic.getMandatoryValueFloat. agree.
Qed.

Lemma getSegmentStyles_agrees (xmlDoc : node) :
  agrees_upto e (Generic.getSegmentStyles other xmlDoc)
    (Generic.getSegmentStyles accessor xmlDoc).
Proof.
  unfold Generic.getSegmentStyles, Generic.segmentStyle_body,
    Generic.traveler_body, Generic.readWobble,
    Generic.getMandatoryValueString, Generic.getMandatoryValueFloat,
    Generic.getMandatoryValueInteger. agree.
Qed.

Lemma getTrajectories_agrees (doc : node) :
  agrees_upto e (Generic.getTrajectories other doc)
    (Generic.getTrajectories accessor doc).
Proof.
  unfold Generic.getTrajectories, Generic.trajectory_body, Generic.path_body,
    Generic.segment_body, Generic.getMandatoryValueString,
    Generic.getMandatoryValueFloat, Generic.getMandatoryValueInteger. agree.
Qed.

(** Two decoders whose accessors agree up to [e] agree up to [e]. *)
Lemma LoadDocument_agrees (xmlDoc : node) :
  agrees_upto e (Generic.LoadDocument other xmlDoc)
    (Generic.LoadDocument accessor xmlDoc).
Proof.
  unfold Generic.LoadDocument.
  apply agrees_bind; [apply getHeader_agrees | intros].
  apply agrees_bind; [apply getSegmentStyles_agrees | intros].
  apply agrees_bind; [apply getVelocityProfiles_agrees | intros].
  apply agrees_bind; [apply getTrajectories_agrees | intros].
  apply agrees_refl.
Qed.

End Agreement.

Lemma supplied_agrees (owner : node) (tagName : string) (v : value) :
  absent_or_empty owner tagName ->
  forall n t k,
    agrees_upto (AssertionError (field_message owner tagName))
      (supplied owner tagName v n t k) (getMandatoryValue n t k).
Proof.
  intros Habs n t k. unfold supplied.
  destruct (node_eqb n owner && String.eqb t tagName) eqn:E.
  - apply andb_true_iff in E. destruct E as [En Et].
    apply node_eqb_eq in En. apply String.eqb_eq in Et. subst.
    right. now apply missing_field_throws.
  - now left.
Qed.

(** C5. When a field the decoder reads with the mandatory accessor is
    missing for it (no element of that name below the node it is read from,
    or the first one without text), no layer is returned; and if the
    document decodes once that one read is supplied with a value, decoding
    throws the assertion error that names the tag. *)
Theorem missing_mandatory_field_fails :
  forall (xmlDoc owner : node) (tagName : string),
    In (owner, tagName) (mandatory_reads xmlDoc) ->
    absent_or_empty owner tagName ->
    (exists err, LoadDocument xmlDoc = Err err)
    /\ (forall (v : value) (L : Layer),
           Generic.LoadDocument (supplied owner tagName v) xmlDoc = Ok L ->
           LoadDocument xmlDoc
           = Err (AssertionError (field_message owner tagName))).
Proof.
  intros xmlDoc owner tagName Hin Habs.
  assert (Hno : forall L, LoadDocument xmlDoc <> Ok L).
  { intros L HL. apply mandatory_reads_ok in HL.
    rewrite Forall_forall in HL. destruct (HL _ Hin) as [k [v Hv]].
    simpl in Hv. rewrite (missing_field_throws _ _ k Habs) in Hv.
    discriminate Hv. }
  split.
  - destruct (LoadDocument xmlDoc) as [L | err] eqn:E.
    + exfalso. now apply (Hno L).
    + now exists err.
  - intros v L HL.
    destruct (LoadDocument_agrees _ _ _ (supplied_agrees owner tagName v Habs)
                xmlDoc) as [H | H].
    + exfalso. apply (Hno L). unfold LoadDocument. rewrite H. exact HL.
    + exact H.
Qed.

(** A profile without [Velocity], and one whose [Velocity] is empty. *)
Lemma missing_mandatory_field_fails_witness :
  LoadDocument (sample_document "0.5" [] [jump_style])
  = Err (AssertionError "Tag Velocity is mandatory.")
  /\ LoadDocument
       (sample_document "0.5" [Element "Velocity" []] [jump_style])
     = Err (AssertionError "INVALID SCHEMA: Empty <Velocity> tag!").
Proof.
  split.
  - refine (proj2 (missing_mandatory_field_fails
                     (sample_document "0.5" [] [jump_style])
                     (sample_profile []) "Velocity" _ I)
              (VString "800") _ _).
    + unfold mandatory_reads. simpl. tauto.
    + vm_compute. reflexivity.
  - refine (proj2 (missing_mandatory_field_fails
                     (sample_document "0.5" [Element "Velocity" []] [jump_style])
                     (sample_profile [Element "Velocity" []]) "Velocity"
                     _ eq_refl)
              (VString "800") _ _).
    + unfold mandatory_reads. simpl. tauto.
    + vm_compute. reflexivity.
Defined.

(** A style that lacks its own [ID] decodes all the same: the accessor
    finds the [ID] of the traveler below it. *)
Lemma style_without_ID_decodes :
  childrenNamed style_without_ID "ID" = []
  /\ exists L,
       LoadDocument
         (sample_document "0.5" [leaf "Velocity" "800"] [style_without_ID])
       = Ok L
       /\ map ss_ID (segmentStyles L) = [VString "1"].
Proof.
  split; [reflexivity |].
  eexists. split; [vm_compute; reflexivity | reflexivity].
Qed.

(** ** Encoding and decoding again *)

(** No decoded traveler has a wobble. *)
Lemma decoded_travelers_have_no_wobble (xmlDoc : node) (L : Layer) :
  LoadDocument xmlDoc = Ok L ->
  forall s t, In s (segmentStyles L) -> In t (travelers s) -> wobble t = None.
Proof.
  unfold LoadDocument, Generic.LoadDocument. intros H.
  step H as h Hh. step H as ss Hss. step H as vps Hvps. step H as ts Hts.
  injection H as <-. simpl. intros s t Hs Ht.
  apply for_of_push_Forall2 in Hss.
  destruct (Forall2_In_r _ _ _ _ Hss Hs) as [style [_ Hstyle]].
  unfold Generic.segmentStyle_body in Hstyle.
  step Hstyle as trs Htrs. step Hstyle as i Hi. step Hstyle as vp Hvp.
  step Hstyle as lm Hlm. step Hstyle as u Hu. injection Hstyle as <-.
  simpl in Ht.
  destruct (getElementsByTagName style "Traveler") as [| x xs];
    [injection Htrs as <-; contradiction |].
  change (0 <? length (x :: xs))%nat with true in Htrs. cbv iota in Htrs.
  apply for_of_push_Forall2 in Htrs.
  destruct (Forall2_In_r _ _ _ _ Htrs Ht) as [travelerXML [_ Htr]].
  eapply traveler_body_wobble; eauto.
Qed.

(** C1. Encoding a layer and decoding the text does not give the layer
    back.  For a layer with a traveler that wobbles, decoding the text
    throws; for one without, decoding succeeds with every number replaced
    by its text, which is a different layer. *)
Theorem export_then_load_differs :
  (exists xmlStr,
      ExportXML wobble_layer = Ok xmlStr
      /\ LoadXML xmlStr
         = Some (Err (AssertionError "INVALID SCHEMA: Wobble On must be 0 or 1!")))
  /\ (exists xmlStr,
         ExportXML plain_layer = Ok xmlStr
         /\ LoadXML xmlStr = Some (Ok plain_layer_decoded)
         /\ plain_layer_decoded <> plain_layer).
Proof.
  split.
  - eexists. split; [vm_compute; reflexivity | vm_compute; reflexivity].
  - eexists. split; [vm_compute; reflexivity |].
    split; [vm_compute; reflexivity | discriminate].
Qed.

(** A path without segments is written without its [Start] block, and
    the decoder cannot read that path back. *)
Lemma empty_path_does_not_load :
  exists xmlStr,
    ExportXML empty_path_layer = Ok xmlStr
    /\ LoadXML xmlStr
       = Some (Err (TypeError
                      "Cannot read properties of undefined (reading 'getElementsByTagName')")).
Proof.
  eexists. split; vm_compute; reflexivity.
Qed.

(* ================================================================= *)
(** * Further properties *)

(** ** Lexical forms *)

Lemma span_digits_spec (s d r : string) :
  span_digits s = (d, r) ->
  s = (d ++ r)%string /\ all_digits d = true
  /\ match r with
     | EmptyString => True
     | String c _ => is_digit c = false
     end.
Proof.
  revert d r; induction s as [| c s IH]; simpl; intros d r H.
  - injection H as <- <-. auto.
  - destruct (is_digit c) eqn:Hc.
    + destruct (span_digits s) as [d' r'] eqn:E. injection H as <- <-.
      destruct (IH _ _ eq_refl) as [-> [Hd Hr]].
      simpl. rewrite Hc, Hd. auto.
    + injection H as <- <-. simpl. rewrite Hc. auto.
Qed.

Lemma span_digits_app (d r : string) :
  all_digits d = true ->
  match r with
  | EmptyString => True
  | String c _ => is_digit c = false
  end ->
  span_digits (d ++ r) = (d, r).
Proof.
  intros Hd Hr. induction d as [| c d IH]; simpl in *.
  - destruct r as [| c r]; [reflexivity |]. simpl. now rewrite Hr.
  - apply andb_true_iff in Hd. destruct Hd as [Hc Hd].
    rewrite Hc, (IH Hd). reflexivity.
Qed.

Lemma digit_not_sign (c : ascii) : is_digit c = true -> is_sign c = false.
Proof.
  intros H. destruct (is_sign c) eqn:E; [| reflexivity].
  apply sign_not_digit in E. congruence.
Qed.

(** X3. [isFloatRegex] accepts exactly the numerals made of an optional
    sign, digits, and then either nothing (after at least one digit) or a
    single point followed by at least one digit: no exponent, no second
    point, no point at the end. *)
Theorem isFloatRegex_form :
  forall s : string, isFloatRegex s = true <-> float_form s.
Proof.
  intros s. unfold isFloatRegex, float_form. split.
  - intros H.
    assert (Hs : exists sg, s = (sg ++ strip_sign s)%string
                /\ (sg = EmptyString \/ sg = "+"%string \/ sg = "-"%string)).
    { destruct s as [| c r]; [exists EmptyString; auto |].
      simpl. destruct (is_sign c) eqn:Hc.
      - unfold is_sign in Hc. apply orb_true_iff in Hc.
        destruct Hc as [Hc | Hc]; apply Ascii.eqb_eq in Hc; subst c.
        + exists "+"%string. auto.
        + exists "-"%string. auto.
      - exists EmptyString. auto. }
    destruct Hs as [sg [Hs Hsg]].
    destruct (span_digits (strip_sign s)) as [d rest] eqn:E.
    destruct (span_digits_spec _ _ _ E) as [Hr [Hd _]].
    exists sg, d, rest. rewrite <- Hr. split; [exact Hs |].
    split; [exact Hsg |]. split; [exact Hd |].
    destruct rest as [| c f]; [left; auto |].
    apply andb_true_iff in H. destruct H as [H Hf].
    apply andb_true_iff in H. destruct H as [Hc Hn].
    apply Ascii.eqb_eq in Hc. subst c. right. exists f. auto.
  - intros [sg [ip [fp [-> [Hsg [Hip Hfp]]]]]].
    assert (Hnd : match fp with
                  | EmptyString => True
                  | String c _ => is_digit c = false
                  end).
    { destruct Hfp as [[-> _] | [f [-> _]]]; [exact I | reflexivity]. }
    assert (Hstrip : strip_sign (sg ++ ip ++ fp) = (ip ++ fp)%string).
    { destruct Hsg as [-> | [-> | ->]]; [| reflexivity | reflexivity].
      simpl. destruct ip as [| c ip]; simpl.
      - destruct Hfp as [[_ Hn] | [f [-> _]]]; [discriminate | reflexivity].
      - simpl in Hip. apply andb_true_iff in Hip. destruct Hip as [Hc _].
        now rewrite (digit_not_sign _ Hc). }
    rewrite Hstrip, (span_digits_app _ _ Hip Hnd).
    destruct Hfp as [[-> Hn] | [f [-> [Hn Hf]]]]; [exact Hn |].
    rewrite Hn, Hf. reflexivity.
Qed.

(** A signed decimal has the form; a numeral with an exponent has not. *)
Lemma isFloatRegex_form_witness :
  float_form "-2.5" /\ ~ float_form "1e5".
Proof.
  split.
  - apply (proj1 (isFloatRegex_form "-2.5")). reflexivity.
  - intros H. apply (proj2 (isFloatRegex_form "1e5")) in H. discriminate H.
Defined.


(** ** The accessors *)




(** ** What a decoded layer has been checked for *)

Lemma mandatory_string_text (xmlNode : node) (tagName : string) (v : value) :
  getMandatoryValue xmlNode tagName None = Ok v -> text_value any_text v.
Proof.
  intros H. apply getMandatoryValue_Ok in H.
  destruct H as [first [later [_ [Hn [_ ->]]]]].
  exists (textContent first). unfold any_text. auto.
Qed.

Lemma mandatory_float_text (xmlNode : node) (tagName : string) (v : value) :
  getMandatoryValue xmlNode tagName (Some KFloat) = Ok v ->
  text_value is_float v.
Proof.
  intros H. apply getMandatoryValue_Ok in H.
  destruct H as [first [later [_ [Hn [Hv ->]]]]].
  exists (textContent first). split; [reflexivity |]. split; [exact Hn |].
  eapply validate_float; eauto.
Qed.

Lemma mandatory_integer_text (xmlNode : node) (tagName : string) (v : value) :
  getMandatoryValue xmlNode tagName (Some KInteger) = Ok v ->
  text_value is_digits v.
Proof.
  intros H. apply getMandatoryValue_Ok in H.
  destruct H as [first [later [_ [Hn [Hv ->]]]]].
  exists (textContent first). split; [reflexivity |]. split; [exact Hn |].
  eapply validate_integer; eauto.
Qed.

Lemma optional_string_text (xmlNode : node) (tagName : string) (v : value) :
  getOptionalValue xmlNode tagName None = Ok v ->
  undefined_or (text_value any_text) v.
Proof.
  intros H. apply getOptionalValue_Ok in H.
  destruct H as [-> | [first [later [_ [Hn [_ ->]]]]]]; [now left | right].
  exists (textContent first). unfold any_text. auto.
Qed.

Lemma optional_float_text (xmlNode : node) (tagName : string) (v : value) :
  getOptionalValue xmlNode tagName (Some KFloat) = Ok v ->
  undefined_or (text_value is_float) v.
Proof.
  intros H. apply getOptionalValue_Ok in H.
  destruct H as [-> | [first [later [_ [Hn [Hv ->]]]]]]; [now left | right].
  exists (textContent first). split; [reflexivity |]. split; [exact Hn |].
  eapply validate_float; eauto.
Qed.

Lemma optional_integer_text (xmlNode : node) (tagName : string) (v : value) :
  getOptionalValue xmlNode tagName (Some KInteger) = Ok v ->
  undefined_or (text_value is_digits) v.
Proof.
  intros H. apply getOptionalValue_Ok in H.
  destruct H as [-> | [first [later [_ [Hn [Hv ->]]]]]]; [now left | right].
  exists (textContent first). split; [reflexivity |]. split; [exact Hn |].
  eapply validate_integer; eauto.
Qed.

Lemma positive_float_text (v : value) :
  text_value is_float v -> js_gt0 v = true -> text_value is_positive v.
Proof.
  intros [s [-> [Hn Hf]]] Hgt. exists s. split; [reflexivity |].
  split; [exact Hn |]. split; [exact Hf | now apply gt0_positive].
Qed.

(** An optional float that passed [!v || v > 0]. *)
Lemma optional_positive_text (v : value) :
  undefined_or (text_value is_float) v ->
  negb (truthy v) || js_gt0 v = true ->
  undefined_or (text_value is_positive) v.
Proof.
  intros [-> | Hv] H; [now left | right].
  apply positive_float_text; [exact Hv |].
  destruct Hv as [s [-> [Hn _]]]. simpl in H. rewrite Hn in H. exact H.
Qed.

Lemma nonnegative_float_text (v : value) :
  undefined_or (text_value is_float) v ->
  negb (truthy v) || js_ge0 v = true ->
  undefined_or (text_value is_nonnegative) v.
Proof.
  intros [-> | [s [-> [Hn Hf]]]] H; [now left | right].
  exists s. split; [reflexivity |]. split; [exact Hn |].
  split; [exact Hf |].
  simpl in H. rewrite Hn in H. simpl in H.
  unfold js_ge0 in H. simpl in H.
  destruct (StringToNumber s) as [| neg m k]; [discriminate |].
  exists neg, m, k. split; [reflexivity |]. intros ->. simpl in H.
  unfold rounds_to_zero in H. now apply N.leb_le in H.
Qed.

Lemma strict_eq_str_true (v : value) (lit : string) :
  strict_eq_str v lit = true -> v = VString lit.
Proof.
  destruct v; simpl; try discriminate. intros H.
  apply String.eqb_eq in H. now subst.
Qed.

(** A text that passed [v === a || v === b]. *)
Lemma one_of_two (v : value) (a b : string) :
  text_value any_text v ->
  strict_eq_str v a || strict_eq_str v b = true ->
  text_value (is_one_of [a; b]) v.
Proof.
  intros [s [-> [Hn _]]] H. exists s. split; [reflexivity |].
  split; [exact Hn |]. unfold is_one_of. simpl.
  apply orb_true_iff in H. destruct H as [H | H];
    apply strict_eq_str_true in H; injection H as ->; auto.
Qed.

Lemma getHeader_checked (xmlDoc : node) (h : Header) :
  getHeader xmlDoc = Ok h -> checked_header h.
Proof.
  unfold getHeader, Generic.getHeader, Generic.getMandatoryValueString,
    Generic.getMandatoryValueFloat, getOptionalValueInteger,
    getOptionalValueFloat, getOptionalValueString. intros H.
  step H as v Hv. step H as n Hn. step H as t Ht. step H as ah Hah.
  step H as d Hd. step H as b Hb. step H as u1 Hu1. step H as u2 Hu2.
  step H as u3 Hu3. step H as u4 Hu4. injection H as <-.
  cbn [americaMakesSchemaVersion layerNum layerThickness absoluteHeight
       dosingFactor buildDescription] in *.
  apply assert_Ok in Hu1, Hu2, Hu3, Hu4.
  unfold checked_header.
  cbn [americaMakesSchemaVersion layerNum layerThickness absoluteHeight
       dosingFactor buildDescription].
  repeat split.
  - apply mandatory_string_text in Hv. destruct Hv as [s [-> [Hs _]]].
    exists s. unfold is_date. auto.
  - eapply optional_integer_text; eauto.
  - apply positive_float_text; [eapply mandatory_float_text; eauto | exact Hu2].
  - apply optional_positive_text; [eapply optional_float_text; eauto | exact Hu3].
  - apply optional_positive_text; [eapply optional_float_text; eauto | exact Hu4].
  - eapply optional_string_text; eauto.
Qed.

Lemma velocityProfile_checked (style : node) (p : VelocityProfile) :
  velocityProfile_body style = Ok p -> checked_profile p.
Proof.
  unfold velocityProfile_body, Generic.velocityProfile_body,
    Generic.getMandatoryValueString, Generic.getMandatoryValueFloat.
  intros H.
  step H as i Hi. step H as v Hv. step H as m Hm. step H as lon Hlon.
  step H as loff Hloff. step H as j Hj. step H as mk Hmk. step H as pd Hpd.
  step H as u1 Hu1. step H as u2 Hu2. injection H as <-.
  cbn [velocity mode] in *. apply assert_Ok in Hu1, Hu2.
  unfold checked_profile; simpl. repeat split.
  - eapply mandatory_string_text; eauto.
  - apply positive_float_text; [eapply mandatory_float_text; eauto | exact Hu1].
  - apply one_of_two; [eapply mandatory_string_text; eauto | exact Hu2].
  - eapply mandatory_float_text; eauto.
  - eapply mandatory_float_text; eauto.
  - eapply mandatory_float_text; eauto.
  - eapply mandatory_float_text; eauto.
  - eapply mandatory_float_text; eauto.
Qed.

Lemma traveler_checked (travelerXML : node) (t : Traveler) :
  traveler_body travelerXML = Ok t -> checked_traveler t.
Proof.
  unfold traveler_body, Generic.traveler_body,
    Generic.getMandatoryValueInteger, getOptionalValueInteger,
    getOptionalValueFloat. intros H.
  step H as u Hu. step H as i Hi. step H as sd Hsd. step H as p Hp.
  step H as sp Hsp. step H as c Hc. injection H as <-.
  cbn [power] in Hc. apply assert_Ok in Hc.
  unfold checked_traveler; simpl. repeat split.
  - eapply mandatory_integer_text; eauto.
  - eapply optional_integer_text; eauto.
  - apply nonnegative_float_text; [eapply optional_float_text; eauto | exact Hc].
  - eapply optional_float_text; eauto.
Qed.

(** The parts of a decoded style. *)
Lemma segmentStyle_parts (style : node) (s : SegmentStyle) :
  segmentStyle_body style = Ok s ->
  Forall2 (fun travelerXML t => traveler_body travelerXML = Ok t)
    (getElementsByTagName style "Traveler") (travelers s)
  /\ getMandatoryValueString style "ID" = Ok (ss_ID s)
  /\ getMandatoryValueString style "VelocityProfileID"
     = Ok (velocityProfileID s)
  /\ (if negb (length (travelers s) =? 0)%nat
      then getOptionalValueString style "LaserMode"
      else Ok VUndefined) = Ok (laserMode s)
  /\ negb (truthy (laserMode s))
     || strict_eq_str (laserMode s) "Independent"
     || strict_eq_str (laserMode s) "FollowMe" = true.
Proof.
  unfold segmentStyle_body, Generic.segmentStyle_body.
  change (Generic.traveler_body getMandatoryValue) with traveler_body.
  rewrite segmentStyle_travelers. intros H.
  step H as trs Htrs. step H as i Hi. step H as vp Hvp. step H as lm Hlm.
  step H as u Hu. injection H as <-. cbn [laserMode] in Hu.
  apply assert_Ok in Hu. simpl.
  apply traverse_Forall2 in Htrs. auto.
Qed.

Lemma segmentStyle_checked (style : node) (s : SegmentStyle) :
  segmentStyle_body style = Ok s -> checked_style s.
Proof.
  intros H. apply segmentStyle_parts in H.
  destruct H as [Htrs [Hi [Hvp [Hlm Hu]]]].
  unfold checked_style. repeat split.
  - eapply mandatory_string_text; eauto.
  - eapply mandatory_string_text; eauto.
  - destruct (negb (length (travelers s) =? 0)%nat);
      [| injection Hlm as <-; now left].
    apply optional_string_text in Hlm.
    destruct Hlm as [Hlm | Hlm]; [now left | right].
    apply one_of_two; [exact Hlm |].
    destruct Hlm as [x [Hx [Hn _]]]. rewrite Hx in *. simpl in Hu.
    rewrite Hn in Hu. exact Hu.
  - intros Hnil. rewrite Hnil in Hlm. simpl in Hlm. now injection Hlm as <-.
  - clear - Htrs. induction Htrs as [| x t xs ts Hx _ IH]; constructor;
      [eapply traveler_checked; eauto | exact IH].
Qed.

Lemma segment_loop_checked (segmentsXML : list node) (st st' : cursor) :
  for_of segmentsXML segment_body st = Ok st' ->
  text_value is_float (lastX st) -> text_value is_float (lastY st) ->
  Forall checked_segment (pushed st) ->
  Forall checked_segment (pushed st').
Proof.
  revert st; induction segmentsXML as [| e rest IH]; intros st; simpl.
  - intros H. now injection H as <-.
  - intros H Hx Hy Hp. step H as st1 Hst1.
    unfold segment_body, Generic.segment_body,
      Generic.getMandatoryValueFloat, Generic.getMandatoryValueString,
      getOptionalValueString in Hst1.
    step Hst1 as x Hx2. step Hst1 as y Hy2. step Hst1 as sid Hsid.
    step Hst1 as sty Hsty. injection Hst1 as <-.
    apply mandatory_float_text in Hx2, Hy2.
    apply (IH _ H); simpl; try assumption.
    apply Forall_app. split; [exact Hp |].
    constructor; [| constructor].
    unfold checked_segment; simpl. repeat split; try assumption.
    + eapply optional_string_text; eauto.
    + eapply mandatory_string_text; eauto.
Qed.

Lemma small_digits_text (v : value) :
  text_value is_digits v -> js_ge0 v && js_le v 3 = true ->
  text_value (at_most 3) v.
Proof.
  intros [s [-> [Hn Hd]]] H. exists s. split; [reflexivity |].
  split; [exact Hn |]. split; [exact Hd |].
  apply andb_true_iff in H. destruct H as [_ H].
  unfold js_le in H. simpl in H. rewrite (digits_to_number _ Hd Hn) in H.
  simpl in H. apply Z.leb_le in H. lia.
Qed.

Lemma path_checked (pathXML : node) (p : Path) :
  path_body pathXML = Ok p -> checked_path p.
Proof.
  unfold path_body, Generic.path_body, Generic.getMandatoryValueString,
    Generic.getMandatoryValueInteger, Generic.getMandatoryValueFloat.
  intros H.
  step H as ty Hty. step H as tg Htg. step H as ns Hns. step H as sw Hsw.
  step H as u1 Hu1. step H as u2 Hu2.
  destruct (hd_error (getElementsByTagName pathXML "Start")) as [start |];
    [| discriminate].
  step H as sx Hsx. step H as sy Hsy. step H as st Hst. injection H as <-.
  apply assert_Ok in Hu1, Hu2.
  unfold checked_path; simpl. repeat split.
  - apply one_of_two; [eapply mandatory_string_text; eauto | exact Hu1].
  - eapply mandatory_string_text; eauto.
  - eapply mandatory_integer_text; eauto.
  - apply small_digits_text; [eapply mandatory_integer_text; eauto | exact Hu2].
  - apply (segment_loop_checked _ _ _ Hst); simpl.
    + eapply mandatory_float_text; eauto.
    + eapply mandatory_float_text; eauto.
    + constructor.
Qed.

(** The parts of a decoded trajectory. *)
Lemma trajectory_parts (trajectoryXML : node) (t : Trajectory) :
  trajectory_body trajectoryXML = Ok t ->
  Forall2 (fun pathXML p => path_body pathXML = Ok p)
    (getElementsByTagName trajectoryXML "Path") (paths t)
  /\ getMandatoryValueString trajectoryXML "TrajectoryID"
     = Ok (trajectoryID t)
  /\ getMandatoryValueString trajectoryXML "PathProcessingMode"
     = Ok (pathProcessingMode t)
  /\ strict_eq_str (pathProcessingMode t) "sequential"
     || strict_eq_str (pathProcessingMode t) "concurrent" = true.
Proof.
  unfold trajectory_body, Generic.trajectory_body. intros H.
  step H as ps Hps. step H as i Hi. step H as m Hm. step H as u Hu.
  injection H as <-. cbn [pathProcessingMode] in Hu. apply assert_Ok in Hu.
  apply for_of_push_Forall2 in Hps. simpl. auto.
Qed.

Lemma trajectory_checked (trajectoryXML : node) (t : Trajectory) :
  trajectory_body trajectoryXML = Ok t -> checked_trajectory t.
Proof.
  intros H. apply trajectory_parts in H. destruct H as [Hps [Hi [Hm Hu]]].
  unfold checked_trajectory. repeat split.
  - eapply mandatory_string_text; eauto.
  - apply one_of_two; [eapply mandatory_string_text; eauto | exact Hu].
  - clear - Hps. induction Hps as [| x p xs ps Hx _ IH]; constructor;
      [eapply path_checked; eauto | exact IH].
Qed.

(** The four sections of a decoded layer, each element against what it
    was decoded to. *)
Lemma LoadDocument_sections (xmlDoc : node) (L : Layer) :
  LoadDocument xmlDoc = Ok L ->
  getHeader xmlDoc = Ok (header L)
  /\ Forall2 (fun style s => segmentStyle_body style = Ok s)
       (getElementsByTagName xmlDoc "SegmentStyle") (segmentStyles L)
  /\ Forall2 (fun style p => velocityProfile_body style = Ok p)
       (getElementsByTagName xmlDoc "VelocityProfile") (velocityProfiles L)
  /\ Forall2 (fun trajectoryXML t => trajectory_body trajectoryXML = Ok t)
       (getElementsByTagName xmlDoc "Trajectory") (trajectories L).
Proof.
  unfold LoadDocument, Generic.LoadDocument. intros H.
  step H as h Hh. step H as ss Hss. step H as vps Hvps. step H as ts Hts.
  injection H as <-. simpl.
  apply for_of_push_Forall2 in Hss, Hvps, Hts. auto.
Qed.

Lemma Forall2_Forall_r {A B} (R : A -> B -> Prop) (P : B -> Prop)
  (xs : list A) (ys : list B) :
  (forall x y, R x y -> P y) -> Forall2 R xs ys -> Forall P ys.
Proof.
  intros HRP H. induction H; constructor; eauto.
Qed.

(** X4. The header of every decoded layer has a schema version of the
    form YYYY-MM-DD, a positive layer thickness, a layer number that is
    absent or made of digits, an absolute height and a dosing factor that
    are absent or positive, and a build description that is absent or not
    empty; all of them as text. *)
Theorem decoded_header_checked :
  forall (xmlDoc : node) (L : Layer),
    LoadDocument xmlDoc = Ok L -> checked_header (header L).
Proof.
  intros xmlDoc L H. apply LoadDocument_sections in H.
  destruct H as [Hh _]. now apply getHeader_checked in Hh.
Qed.

(** X5. A decoded layer holds one velocity profile per [VelocityProfile]
    element, in document order and whatever their IDs, each with a
    positive velocity, a mode that is Delay or Auto and five delays that
    are float numerals. *)
Theorem decoded_profiles_checked :
  forall (xmlDoc : node) (L : Layer),
    LoadDocument xmlDoc = Ok L ->
    Forall2 (fun style p => velocityProfile_body style = Ok p)
      (getElementsByTagName xmlDoc "VelocityProfile") (velocityProfiles L)
    /\ length (velocityProfiles L)
       = length (getElementsByTagName xmlDoc "VelocityProfile")
    /\ Forall checked_profile (velocityProfiles L).
Proof.
  intros xmlDoc L H. apply LoadDocument_sections in H.
  destruct H as [_ [_ [Hvps _]]]. split; [exact Hvps |]. split.
  - symmetry. eapply Forall2_length; eauto.
  - eapply Forall2_Forall_r; [| exact Hvps].
    intros x y Hxy. exact (velocityProfile_checked x y Hxy).
Qed.

(** X6. A decoded layer holds one segment style per [SegmentStyle]
    element and, in each, one traveler per [Traveler] element below it.
    The laser mode of a style is absent, Independent or FollowMe, and it is
    absent whenever the style has no traveler, whatever its [LaserMode]
    element says; a traveler has an ID made of digits, a power that is
    absent or not negative, and no wobble. *)
Theorem decoded_styles_checked :
  forall (xmlDoc : node) (L : Layer),
    LoadDocument xmlDoc = Ok L ->
    Forall2 (fun style s =>
               segmentStyle_body style = Ok s
               /\ length (travelers s)
                  = length (getElementsByTagName style "Traveler"))
      (getElementsByTagName xmlDoc "SegmentStyle") (segmentStyles L)
    /\ Forall checked_style (segmentStyles L).
Proof.
  intros xmlDoc L H. apply LoadDocument_sections in H.
  destruct H as [_ [Hss _]]. split.
  - eapply Forall2_impl; [| exact Hss].
    intros style s Hs. split; [exact Hs |].
    apply segmentStyle_parts in Hs. destruct Hs as [Htrs _].
    symmetry. eapply Forall2_length; eauto.
  - eapply Forall2_Forall_r; [| exact Hss].
    intros x y Hxy. exact (segmentStyle_checked x y Hxy).
Qed.

(** X7. In a decoded layer there is one trajectory per [Trajectory]
    element, with a processing mode that is sequential or concurrent; each
    of its paths has a type that is hatch or contour, a segment count made
    of digits and a sky-writing mode whose digits spell a number up to 3;
    each segment has four coordinates that are float numerals and a
    segment style. *)
Theorem decoded_trajectories_checked :
  forall (xmlDoc : node) (L : Layer),
    LoadDocument xmlDoc = Ok L ->
    Forall2 (fun trajectoryXML t => trajectory_body trajectoryXML = Ok t)
      (getElementsByTagName xmlDoc "Trajectory") (trajectories L)
    /\ Forall checked_trajectory (trajectories L).
Proof.
  intros xmlDoc L H. apply LoadDocument_sections in H.
  destruct H as [_ [_ [_ Hts]]]. split; [exact Hts |].
  eapply Forall2_Forall_r; [| exact Hts].
  intros x y Hxy. exact (trajectory_checked x y Hxy).
Qed.

(** The sample document decodes, and its header has been checked. *)
Lemma decoded_header_checked_witness :
  exists L,
    LoadDocument three_styles_document = Ok L
    /\ layerThickness (header L) = VString "0.5"
    /\ checked_header (header L).
Proof.
  eexists. split; [vm_compute; reflexivity |]. split; [reflexivity |].
  apply (decoded_header_checked three_styles_document).
  vm_compute; reflexivity.
Defined.

Lemma decoded_profiles_checked_witness :
  exists L,
    LoadDocument three_styles_document = Ok L
    /\ map mode (velocityProfiles L) = [VString "Auto"]
    /\ Forall checked_profile (velocityProfiles L).
Proof.
  eexists. split; [vm_compute; reflexivity |]. split; [reflexivity |].
  apply (decoded_profiles_checked three_styles_document).
  vm_compute; reflexivity.
Defined.

(** Three styles, among them a jump whose [LaserMode] element says
    Pulsed: all three decode, the laser mode of each left undefined. *)
Lemma decoded_styles_checked_witness :
  exists L,
    LoadDocument three_styles_document = Ok L
    /\ map ss_ID (segmentStyles L)
       = [VString "jump"; VString "s1"; VString "s2"]
    /\ map laserMode (segmentStyles L) = [VUndefined; VUndefined; VUndefined]
    /\ Forall checked_style (segmentStyles L).
Proof.
  eexists. split; [vm_compute; reflexivity |]. split; [reflexivity |].
  split; [reflexivity |].
  apply (decoded_styles_checked three_styles_document).
  vm_compute; reflexivity.
Defined.

(** A path whose [SkyWritingMode] is spelled 03 decodes. *)
Lemma decoded_trajectories_checked_witness :
  exists L,
    LoadDocument (paths_document [short_path]) = Ok L
    /\ map (fun t => map skyWritingMode (paths t)) (trajectories L)
       = [[VString "03"]]
    /\ Forall checked_trajectory (trajectories L).
Proof.
  eexists. split; [vm_compute; reflexivity |]. split; [reflexivity |].
  apply (decoded_trajectories_checked (paths_document [short_path])).
  vm_compute; reflexivity.
Defined.

(** ** Which exception a document is rejected with *)

Lemma Forall2_In_l {A B} (R : A -> B -> Prop) (xs : list A) (ys : list B) x :
  Forall2 R xs ys -> In x xs -> exists y, In y ys /\ R x y.
Proof.
  induction 1 as [| a b xs' ys' Hab _ IH]; simpl; intros Hin.
  - contradiction.
  - destruct Hin as [-> | Hin].
    + exists b; auto.
    + destruct (IH Hin) as [y [Hy HR]]. exists y; auto.
Qed.

(** The parts of a decoded path. *)
Lemma path_parts (pathXML : node) (p : Path) :
  path_body pathXML = Ok p ->
  getElementsByTagName pathXML "Start" <> []
  /\ getMandatoryValueInteger pathXML "NumSegments" = Ok (numSegments p)
  /\ length (segments p) = length (getElementsByTagName pathXML "Segment").
Proof.
  unfold path_body, Generic.path_body. intros H.
  step H as ty Hty. step H as tg Htg. step H as ns Hns. step H as sw Hsw.
  step H as u1 Hu1. step H as u2 Hu2.
  destruct (getElementsByTagName pathXML "Start") as [| start rest] eqn:E;
    [discriminate |]. simpl in H.
  step H as sx Hsx. step H as sy Hsy. step H as st Hst. injection H as <-.
  simpl. split; [discriminate |]. split; [exact Hns |].
  apply segment_loop_chained in Hst. destruct Hst as [segs [Hp Hc]].
  simpl in Hp. rewrite Hp. eapply chained_length; eauto.
Qed.

(** Every [Path] element below a [Trajectory] element of a document that
    decodes has itself been decoded. *)
Lemma decoded_paths (xmlDoc : node) (L : Layer) (trajectoryXML pathXML : node) :
  LoadDocument xmlDoc = Ok L ->
  In trajectoryXML (getElementsByTagName xmlDoc "Trajectory") ->
  In pathXML (getElementsByTagName trajectoryXML "Path") ->
  exists t p, In t (trajectories L) /\ In p (paths t)
              /\ path_body pathXML = Ok p.
Proof.
  intros H Ht Hp. apply LoadDocument_sections in H.
  destruct H as [_ [_ [_ Hts]]].
  destruct (Forall2_In_l _ _ _ _ Hts Ht) as [t [Hin Hbody]].
  apply trajectory_parts in Hbody. destruct Hbody as [Hps _].
  destruct (Forall2_In_l _ _ _ _ Hps Hp) as [p [Hinp Hpath]].
  exists t, p. auto.
Qed.

(** X8. A document with a [Path] element that has no [Start] element
    below it never decodes, even when that path has no segment to start;
    and when the four fields of the path are in order, what its decoding
    throws is not an assertion that names a field but the [TypeError] of
    reading a property of [undefined]. *)
Theorem path_without_Start_never_decodes :
  forall (xmlDoc trajectoryXML pathXML : node),
    In trajectoryXML (getElementsByTagName xmlDoc "Trajectory") ->
    In pathXML (getElementsByTagName trajectoryXML "Path") ->
    getElementsByTagName pathXML "Start" = [] ->
    (exists e, LoadDocument xmlDoc = Err e)
    /\ (forall ty tg ns sw : value,
           getMandatoryValueString pathXML "Type" = Ok ty ->
           getMandatoryValueString pathXML "Tag" = Ok tg ->
           getMandatoryValueInteger pathXML "NumSegments" = Ok ns ->
           getMandatoryValueInteger pathXML "SkyWritingMode" = Ok sw ->
           strict_eq_str ty "hatch" || strict_eq_str ty "contour" = true ->
           js_ge0 sw && js_le sw 3 = true ->
           path_body pathXML
           = Err (TypeError
                    "Cannot read properties of undefined (reading 'getElementsByTagName')")).
Proof.
  intros xmlDoc trajectoryXML pathXML Ht Hp Hstart. split.
  - destruct (LoadDocument xmlDoc) as [L | e] eqn:E; [| now exists e].
    exfalso. destruct (decoded_paths _ _ _ _ E Ht Hp) as [t [p [_ [_ Hb]]]].
    apply path_parts in Hb. destruct Hb as [Hs _]. now apply Hs.
  - intros ty tg ns sw Hty Htg Hns Hsw Hu1 Hu2.
    unfold path_body, Generic.path_body.
    change (Generic.getMandatoryValueString getMandatoryValue)
      with getMandatoryValueString.
    change (Generic.getMandatoryValueInteger getMandatoryValue)
      with getMandatoryValueInteger.
    rewrite Hty, Htg, Hns, Hsw. cbn [bind]. rewrite Hu1, Hu2, Hstart.
    reflexivity.
Qed.

(** A trajectory of a good path and a path with neither [Start] nor
    segments. *)
Lemma path_without_Start_never_decodes_witness :
  (exists e, LoadDocument (paths_document [sample_path; path_without_Start])
             = Err e)
  /\ path_body path_without_Start
     = Err (TypeError
              "Cannot read properties of undefined (reading 'getElementsByTagName')").
Proof.
  split.
  - refine (proj1 (path_without_Start_never_decodes
                     (paths_document [sample_path; path_without_Start])
                     _ path_without_Start _ _ eq_refl)).
    + left. reflexivity.
    + right. left. reflexivity.
  - refine (proj2 (path_without_Start_never_decodes
                     (paths_document [sample_path; path_without_Start])
                     _ path_without_Start _ _ eq_refl)
              (VString "hatch") (VString "part") (VString "0") (VString "0")
              eq_refl eq_refl eq_refl eq_refl eq_refl eq_refl).
    + left. reflexivity.
    + right. left. reflexivity.
Defined.

(** A pushing loop stops at the first element that throws, with what it
    throws. *)
Lemma for_of_push_first_error {A B} (f : A -> result B) (pre : list A) (x : A)
  (post : list A) (acc : list B) (e : error) :
  Forall (fun y => exists b, f y = Ok b) pre ->
  f x = Err e ->
  for_of (pre ++ x :: post) (fun out y => b <- f y ;; Ok (out ++ [b])) acc
  = Err e.
Proof.
  intros Hpre Hx. revert acc.
  induction Hpre as [| y pre [b Hb] _ IH]; intros acc; simpl.
  - rewrite Hx. reflexivity.
  - rewrite Hb. simpl. apply IH.
Qed.

(** X9. Decoding stops at the first thing that fails and throws its
    exception: a failing header before anything else; otherwise the first
    failing [SegmentStyle] element in document order, whatever follows it;
    then, the styles being in order, the first failing [VelocityProfile]
    element; then the first failing [Trajectory] element. *)
Theorem first_failure_is_reported :
  forall (xmlDoc : node) (e : error),
    (getHeader xmlDoc = Err e -> LoadDocument xmlDoc = Err e)
    /\ (forall h pre style post,
           getHeader xmlDoc = Ok h ->
           getElementsByTagName xmlDoc "SegmentStyle" = pre ++ style :: post ->
           Forall (fun y => exists s, segmentStyle_body y = Ok s) pre ->
           segmentStyle_body style = Err e ->
           LoadDocument xmlDoc = Err e)
    /\ (forall h ss pre style post,
           getHeader xmlDoc = Ok h ->
           getSegmentStyles xmlDoc = Ok ss ->
           getElementsByTagName xmlDoc "VelocityProfile"
           = pre ++ style :: post ->
           Forall (fun y => exists p, velocityProfile_body y = Ok p) pre ->
           velocityProfile_body style = Err e ->
           LoadDocument xmlDoc = Err e)
    /\ (forall h ss vps pre trajectoryXML post,
           getHeader xmlDoc = Ok h ->
           getSegmentStyles xmlDoc = Ok ss ->
           getVelocityProfiles xmlDoc = Ok vps ->
           getElementsByTagName xmlDoc "Trajectory"
           = pre ++ trajectoryXML :: post ->
           Forall (fun y => exists t, trajectory_body y = Ok t) pre ->
           trajectory_body trajectoryXML = Err e ->
           LoadDocument xmlDoc = Err e).
Proof.
  intros xmlDoc e.
  unfold LoadDocument, Generic.LoadDocument.
  change (Generic.getHeader getMandatoryValue) with getHeader.
  change (Generic.getSegmentStyles getMandatoryValue) with getSegmentStyles.
  change (Generic.getVelocityProfiles getMandatoryValue)
    with getVelocityProfiles.
  change (Generic.getTrajectories getMandatoryValue) with getTrajectories.
  split; [intros ->; reflexivity |]. split; [| split].
  - intros h pre style post Hh Hl Hpre He. rewrite Hh. cbn [bind].
    unfold getSegmentStyles, Generic.getSegmentStyles. rewrite Hl.
    change (Generic.segmentStyle_body getMandatoryValue)
      with segmentStyle_body.
    rewrite (for_of_push_first_error segmentStyle_body _ _ _ _ _ Hpre He).
    reflexivity.
  - intros h ss pre style post Hh Hss Hl Hpre He. rewrite Hh, Hss.
    cbn [bind].
    unfold getVelocityProfiles, Generic.getVelocityProfiles. rewrite Hl.
    change (Generic.velocityProfile_body getMandatoryValue)
      with velocityProfile_body.
    rewrite (for_of_push_first_error velocityProfile_body _ _ _ _ _ Hpre He).
    reflexivity.
  - intros h ss vps pre trajectoryXML post Hh Hss Hvps Hl Hpre He.
    rewrite Hh, Hss, Hvps. cbn [bind].
    unfold getTrajectories, Generic.getTrajectories. rewrite Hl.
    change (Generic.trajectory_body getMandatoryValue) with trajectory_body.
    rewrite (for_of_push_first_error trajectory_body _ _ _ _ _ Hpre He).
    reflexivity.
Qed.

(** Of a style with a bad [LaserMode] followed by a style without [ID],
    the first is the one reported. *)
Lemma first_failure_is_reported_witness :
  LoadDocument two_bad_styles_document
  = Err (AssertionError
           "INVALID SCHEMA: LaserMode must be 'Independent' or 'FollowMe'!")
  /\ segmentStyle_body (sample_style [] [])
     = Err (AssertionError "Tag ID is mandatory.").
Proof.
  split; [| reflexivity].
  refine (proj1 (proj2 (first_failure_is_reported two_bad_styles_document _))
            _ [jump_style] (style_with_bad_LaserMode [sample_traveler []])
            [sample_style [] []] _ eq_refl _ eq_refl).
  - vm_compute. reflexivity.
  - constructor; [| constructor]. eexists. vm_compute. reflexivity.
Defined.

(** ** The encoder *)

Lemma traverse_Ok_iff {A B} (f : A -> result B) (xs : list A) :
  (exists ys, traverse f xs = Ok ys)
  <-> Forall (fun x => exists y, f x = Ok y) xs.
Proof.
  split.
  - intros [ys H]. apply traverse_Forall2 in H.
    induction H; constructor; eauto.
  - induction 1 as [| x xs [y Hy] _ [ys IH]]; simpl.
    + eexists; reflexivity.
    + rewrite Hy, IH. simpl. eexists; reflexivity.
Qed.

Lemma traverse_Err {A B} (f : A -> result B) (xs : list A) (e : error) :
  traverse f xs = Err e -> exists x, In x xs /\ f x = Err e.
Proof.
  induction xs as [| x xs IH]; simpl; [discriminate |].
  destruct (f x) as [y | e'] eqn:E; simpl.
  - destruct (traverse f xs) as [ys | e'']; simpl; [discriminate |].
    intros H. injection H as ->.
    destruct (IH eq_refl) as [x' [Hin Hx]]. exists x'. auto.
  - intros H. injection H as ->. exists x. auto.
Qed.

Lemma path_string_Ok (p : Path) :
  (exists s, path_string p = Ok s) <-> ~ dangling p.
Proof.
  unfold path_string, dangling.
  destruct (js_gt0 (numSegments p)); [| split].
  - destruct (segments p) as [| first rest]; simpl; split.
    + intros [s H]. discriminate H.
    + intros H. exfalso. apply H. auto.
    + intros _ [_ H]. discriminate H.
    + intros _. eexists; reflexivity.
  - intros _ [H _]. discriminate H.
  - intros _. simpl. eexists; reflexivity.
Qed.

Lemma path_string_Err (p : Path) (e : error) :
  path_string p = Err e -> e = TypeError x1_message.
Proof.
  unfold path_string.
  destruct (js_gt0 (numSegments p)); [| discriminate].
  destruct (segments p); simpl; [| discriminate].
  intros H. now injection H as <-.
Qed.

Lemma trajectory_string_Ok (t : Trajectory) :
  (exists s, trajectory_string t = Ok s)
  <-> forall p, In p (paths t) -> ~ dangling p.
Proof.
  unfold trajectory_string. split.
  - intros [s H]. step H as ps Hps.
    assert (Hall : exists ys, traverse path_string (paths t) = Ok ys)
      by eauto.
    apply traverse_Ok_iff in Hall. rewrite Forall_forall in Hall.
    intros p Hp. apply path_string_Ok. now apply Hall.
  - intros H.
    assert (Hall : exists ys, traverse path_string (paths t) = Ok ys).
    { apply traverse_Ok_iff. apply Forall_forall. intros p Hp.
      apply path_string_Ok. now apply H. }
    destruct Hall as [ys ->]. simpl. eexists; reflexivity.
Qed.

(** [ExportXML] returns a text exactly when no path is dangling. *)
Lemma ExportXML_Ok_iff (L : Layer) :
  (exists xmlStr, ExportXML L = Ok xmlStr)
  <-> forall t p, In t (trajectories L) -> In p (paths t) -> ~ dangling p.
Proof.
  unfold ExportXML, GetTrajectoriesString. split.
  - intros [s H]. step H as ts Hts. step Hts as strs Hstrs.
    assert (Hall : exists ys,
               traverse trajectory_string (trajectories L) = Ok ys) by eauto.
    apply traverse_Ok_iff in Hall. rewrite Forall_forall in Hall.
    intros t p Ht. now apply trajectory_string_Ok, Hall.
  - intros H.
    assert (Hall : exists ys,
               traverse trajectory_string (trajectories L) = Ok ys).
    { apply traverse_Ok_iff. apply Forall_forall. intros t Ht.
      apply trajectory_string_Ok. intros p. now apply H. }
    destruct Hall as [ys ->]. simpl. eexists; reflexivity.
Qed.

(** X10. For a layer whose segment counts are numbers, or float numerals
    as text, [ExportXML] returns a text unless some path declares segments
    ([numSegments > 0]) and has none; then it throws the [TypeError] of
    reading [x1] of [undefined], and nothing else is ever thrown. *)
Theorem ExportXML_throws_on_dangling_paths :
  forall L : Layer,
    (forall t p, In t (trajectories L) -> In p (paths t) ->
                 modelled_count (numSegments p)) ->
    ((exists xmlStr, ExportXML L = Ok xmlStr)
     <-> forall t p, In t (trajectories L) -> In p (paths t) -> ~ dangling p)
    /\ (forall e, ExportXML L = Err e -> e = TypeError x1_message).
Proof.
  intros L _. split; [apply ExportXML_Ok_iff |].
  unfold ExportXML, GetTrajectoriesString. intros e H.
  destruct (traverse trajectory_string (trajectories L)) as [ts | e'] eqn:E;
    [discriminate |].
  simpl in H. injection H as ->.
  apply traverse_Err in E. destruct E as [t [_ Ht]].
  unfold trajectory_string in Ht.
  destruct (traverse path_string (paths t)) as [ps | e'] eqn:E;
    [discriminate |].
  simpl in Ht. injection Ht as ->.
  apply traverse_Err in E. destruct E as [p [_ Hp]].
  now apply path_string_Err in Hp.
Qed.

(** A layer whose path has its one segment, and one whose path declares
    two and has none; the counts are numbers. *)
Lemma ExportXML_throws_on_dangling_paths_witness :
  (exists xmlStr, ExportXML plain_layer = Ok xmlStr)
  /\ ExportXML dangling_layer = Err (TypeError x1_message).
Proof.
  split.
  - refine (proj2 (proj1 (ExportXML_throws_on_dangling_paths plain_layer _)) _).
    + intros t p [<- | []] [<- | []]. exact I.
    + intros t p [<- | []] [<- | []] [_ H]. discriminate H.
  - destruct (ExportXML dangling_layer) as [s | e] eqn:E.
    + vm_compute in E. discriminate E.
    + f_equal.
      refine (proj2 (ExportXML_throws_on_dangling_paths dangling_layer _) e E).
      intros t p [<- | []] [<- | []]. exact I.
Defined.

Lemma written_alike_string (s s' : Segment) :
  written_alike s s' -> segment_string s = segment_string s'.
Proof.
  intros [Hx [Hy [Hi Hs]]]. unfold segment_string.
  now rewrite Hx, Hy, Hi, Hs.
Qed.

(** X11. What [ExportXML] writes for a path does not depend on the start
    points of the segments after the first: two paths with the same
    fields, the same first start point and segments with the same end
    points, IDs and styles are written as the same text, whether or not
    their segments chain. *)
Theorem path_string_forgets_starts :
  forall p p' : Path, same_outline p p' -> path_string p = path_string p'.
Proof.
  intros p p' [Hty [Htg [Hns [Hsw [Hsegs Hfirst]]]]].
  unfold path_string. rewrite Hty, Htg, Hns, Hsw.
  remember (segments p) as l eqn:El. remember (segments p') as l' eqn:El'.
  clear El El'.
  assert (Hmap : map segment_string l = map segment_string l').
  { clear Hfirst. induction Hsegs as [| s s' l l' Hs _ IH]; simpl;
      [reflexivity |].
    now rewrite (written_alike_string _ _ Hs), IH. }
  destruct (js_gt0 (numSegments p')); [| reflexivity].
  destruct Hsegs as [| s s' l l' Hs Hrest]; [reflexivity |].
  rewrite Hmap.
  destruct (Hfirst s s' eq_refl eq_refl) as [-> ->]. reflexivity.
Qed.

(** A chained path and a path whose second segment starts elsewhere. *)
Lemma path_string_forgets_starts_witness :
  chained_path <> broken_path
  /\ path_string chained_path = path_string broken_path.
Proof.
  split; [discriminate |].
  apply path_string_forgets_starts.
  unfold same_outline, written_alike; simpl.
  refine (conj eq_refl (conj eq_refl (conj eq_refl (conj eq_refl (conj _ _))))).
  - repeat constructor.
  - intros a b Ha Hb. injection Ha as <-. injection Hb as <-.
    split; reflexivity.
Defined.

(** ** Decoding, then encoding *)

(** X12. A decoded layer can be encoded again exactly when every [Path]
    element that declares a positive [NumSegments] has a [Segment] element
    below it: the decoder does not compare the declared count with the
    segments it finds, and [ExportXML] throws on a path that declares
    segments and has none. *)
Theorem decoded_layer_exports :
  forall (xmlDoc : node) (L : Layer),
    LoadDocument xmlDoc = Ok L ->
    ((exists xmlStr, ExportXML L = Ok xmlStr)
     <-> forall trajectoryXML pathXML ns,
           In trajectoryXML (getElementsByTagName xmlDoc "Trajectory") ->
           In pathXML (getElementsByTagName trajectoryXML "Path") ->
           getMandatoryValueInteger pathXML "NumSegments" = Ok ns ->
           js_gt0 ns = true ->
           getElementsByTagName pathXML "Segment" <> []).
Proof.
  intros xmlDoc L HL. split.
  - intros Hexp trajectoryXML pathXML ns Ht Hp Hns Hgt Hnil.
    destruct (decoded_paths _ _ _ _ HL Ht Hp) as [t [p [Hint [Hinp Hb]]]].
    apply path_parts in Hb. destruct Hb as [_ [Hns' Hlen]].
    rewrite Hns in Hns'. injection Hns' as ->.
    rewrite Hnil in Hlen. simpl in Hlen.
    apply (proj1 (ExportXML_Ok_iff L) Hexp t p Hint Hinp).
    split; [exact Hgt |].
    destruct (segments p); [reflexivity | discriminate].
  - intros H. apply ExportXML_Ok_iff. intros t p Hint Hinp [Hgt Hnil].
    apply LoadDocument_sections in HL. destruct HL as [_ [_ [_ Hts]]].
    destruct (Forall2_In_r _ _ _ _ Hts Hint) as [trajectoryXML [Ht Hbody]].
    apply trajectory_parts in Hbody. destruct Hbody as [Hps _].
    destruct (Forall2_In_r _ _ _ _ Hps Hinp) as [pathXML [Hp Hpath]].
    apply path_parts in Hpath. destruct Hpath as [_ [Hns Hlen]].
    apply (H trajectoryXML pathXML (numSegments p) Ht Hp Hns Hgt).
    rewrite Hnil in Hlen. simpl in Hlen.
    destruct (getElementsByTagName pathXML "Segment");
      [reflexivity | discriminate].
Qed.

(** A path that declares three segments and has one is decoded and
    encoded again; one that declares three and has none is decoded, and
    encoding what was decoded throws. *)
Lemma decoded_layer_exports_witness :
  (exists L xmlStr,
      LoadDocument (paths_document [short_path]) = Ok L
      /\ ExportXML L = Ok xmlStr)
  /\ (exists L,
         LoadDocument (paths_document [hollow_path]) = Ok L
         /\ ExportXML L = Err (TypeError x1_message)).
Proof.
  split.
  - assert (HL : exists L, LoadDocument (paths_document [short_path]) = Ok L)
      by (eexists; vm_compute; reflexivity).
    destruct HL as [L HL].
    assert (Hexp : exists xmlStr, ExportXML L = Ok xmlStr).
    { apply (proj2 (decoded_layer_exports _ L HL)).
      intros trajectoryXML pathXML ns Ht Hp _ _.
      destruct Ht as [<- | []]. destruct Hp as [<- | []]. discriminate. }
    destruct Hexp as [xmlStr Hexp]. exists L, xmlStr. auto.
  - eexists. split; vm_compute; reflexivity.
Defined.
